(** * A shallow embedding of the storage fallback layer and the generation
    dispatcher of the educational-content backend.

    Sources embedded here:
    - the volatile backend [MemoryStore] (its user and resource methods)
      and [shouldUseMemoryStore] (services/memoryStore.ts);
    - the request handlers [getResources], [getResourceById],
      [likeResource], [createResource], [deleteResource],
      [publishResource], [generateContent], [getGenerationHistory],
      [getGenerationById] and [deleteGenerationResult]
      (controllers/aiController.ts), on their volatile paths where the
      handler has two;
    - [register], [login], [updateProfile] and [changePassword] on their
      volatile paths (controllers/authController.ts);
    - [MockProvider], the provider registry and [AIService.generateContent]
      (services/aiService.ts);
    - the [param('id')] checks of routes/ai.ts and routes/resources.ts.

    Conventions.  A JavaScript [Date] is its millisecond time value ([Z]).
    Asynchronous methods are modelled by their settled outcome: a resolved
    value or a thrown [Error] with its message.  Methods of [MemoryStore]
    mutate [this]; they are modelled by explicit state passing, the store
    after the call is returned next to the outcome.  External collaborators
    that the code only calls (bcrypt, the clock, the HTTP clients of the
    real providers, the JavaScript engine's [Array.prototype.sort]) are
    Section variables, so every result below holds for any of them. *)

From Stdlib Require Import ZArith Lia.
From stdpp Require Import base gmap strings list pretty.

(* ================================================================= *)
(** ** JavaScript values *)

(** The values the handlers compare or increment: [undefined], numbers
    (with [NaN] apart), strings and booleans. *)
Inductive jsval :=
  | JUndef
  | JNum (z : Z)
  | JNaN
  | JStr (s : string)
  | JBool (b : bool).

(** Settled outcome of a call: the returned value or a thrown [Error]. *)
Inductive Outcome (A : Type) :=
  | Resolve (a : A)
  | Throw (message : string).
Arguments Resolve {A} a.
Arguments Throw {A} message.

(** JavaScript truthiness of an optional string field
    ([undefined] and [""] are falsy). *)
Definition str_truthy (o : option string) : option string :=
  match o with
  | Some s => if String.eqb s "" then None else Some s
  | None => None
  end.

(* ================================================================= *)
(** ** Users of the volatile backend *)

Record Preferences := mkPreferences {
  language : string;
  theme : string;
  aiModels : list string;
  contentTypes : list string
}.

Record Profile := mkProfile {
  displayName : string;
  bio : string;
  institution : string;
  subjects : list string;
  preferences : Preferences
}.

(** [interface MemoryUser] *)
Module MemoryUser.
Record t := mk {
  _id : string;
  username : string;
  email : string;
  password : string;
  role : string;
  profile : Profile;
  createdAt : Z;
  updatedAt : Z;
  lastLoginAt : option Z
}.
End MemoryUser.

(** The argument of [createUser]. *)
Record UserData := mkUserData {
  ud_username : string;
  ud_email : string;
  ud_password : string;
  ud_role : string
}.

(* ================================================================= *)
(** ** Resources *)

(** A resource record, as [MemoryResource] in the volatile backend and as
    the [IResource] document of the persistent backend.  The opaque
    [content] and [metadata] payloads are left out: no operation below
    reads them.  [views] is a JavaScript value because a volatile record
    only has the field when the creation body carried it (otherwise it is
    [undefined]); persistent documents always hold a number (schema
    default 0).  [likes] is the schema's array of account identifiers. *)
Module Resource.
Record t := mk {
  _id : string;
  title : string;
  description : string;
  contentType : string;
  category : string;
  tags : list string;
  creator : string;
  isPublic : bool;
  likes : list string;
  views : jsval;
  createdAt : Z;
  updatedAt : Z
}.
End Resource.

(* ================================================================= *)
(** ** The store *)

(** [class MemoryStore]: the user [Map] is a [gmap] from identifiers to
    users; the resources keep their insertion order in a list.  (The
    [generationResults] array is not touched by the operations below and
    is left out.) *)
Record MemoryStore := mkStore {
  users : gmap string MemoryUser.t;
  userIdCounter : N;
  resourceIdCounter : N;
  resources : list Resource.t
}.

(** A fresh [new MemoryStore()]. *)
Definition initialStore : MemoryStore := mkStore ∅ 1 1 [].

Definition userIdOf (n : N) : string := "user_" +:+ pretty n.

(** [generateUserId]: [`user_${this.userIdCounter++}`]. *)
Definition generateUserId (st : MemoryStore) : string * MemoryStore :=
  (userIdOf (userIdCounter st),
   mkStore (users st) (userIdCounter st + 1) (resourceIdCounter st) (resources st)).

Section Users.
(** [bcrypt.hash(password, 10)] and [new Date()]. *)
Variable bcrypt_hash : string -> string.
Variable now : Z.

(** The [find] predicate of [createUser]. *)
Definition user_clash (d : UserData) (u : MemoryUser.t) : bool :=
  String.eqb (MemoryUser.email u) (ud_email d)
  || String.eqb (MemoryUser.username u) (ud_username d).

Definition createUser_error : string := "用户名或邮箱已存在".

(** The part of [MemoryStore.createUser] before [await bcrypt.hash]: the
    clash check.  [Array.from(this.users.values()).find(..)] only has its
    truthiness tested, so the enumeration order of the values does not
    matter. *)
Definition createUser_check (st : MemoryStore) (d : UserData) : option MemoryUser.t :=
  List.find (user_clash d) (map snd (map_to_list (users st))).

(** The part of [MemoryStore.createUser] after [await bcrypt.hash]: the
    identifier, the record and [this.users.set]. *)
Definition createUser_commit (st : MemoryStore) (d : UserData) (hashedPassword : string)
  : MemoryStore * MemoryUser.t :=
  let '(id, st1) := generateUserId st in
  let user := MemoryUser.mk id (ud_username d) (ud_email d) hashedPassword
                (ud_role d)
                (mkProfile (ud_username d) "" "" []
                   (mkPreferences "zh-CN" "light" [] []))
                now now None in
  (mkStore (<[id := user]> (users st1)) (userIdCounter st1)
           (resourceIdCounter st1) (resources st1),
   user).

(** [MemoryStore.createUser], run to completion without another call
    resuming in between. *)
Definition createUser (st : MemoryStore) (d : UserData)
  : MemoryStore * Outcome MemoryUser.t :=
  match createUser_check st d with
  | Some _ => (st, Throw createUser_error)
  | None =>
      let hashedPassword := bcrypt_hash (ud_password d) in
      let '(st', user) := createUser_commit st d hashedPassword in
      (st', Resolve user)
  end.

(** [MemoryStore.clear]. *)
Definition clear (st : MemoryStore) : MemoryStore :=
  mkStore ∅ 1 (resourceIdCounter st) (resources st).

End Users.

(** Two [createUser] calls that overlap at [await bcrypt.hash], as two
    [register] requests can: both clash checks run on the store as it
    was, then the first call resumes, then the second.  [now1] and [now2]
    are the clock readings after each await. *)
Definition createUser_overlapping (bcrypt_hash : string -> string) (now1 now2 : Z)
    (st : MemoryStore) (d1 d2 : UserData)
  : MemoryStore * (Outcome MemoryUser.t * Outcome MemoryUser.t) :=
  let check1 := createUser_check st d1 in
  let check2 := createUser_check st d2 in
  let '(st1, o1) :=
    match check1 with
    | Some _ => (st, Throw createUser_error)
    | None =>
        let '(st', user) := createUser_commit now1 st d1 (bcrypt_hash (ud_password d1)) in
        (st', Resolve user)
    end in
  let '(st2, o2) :=
    match check2 with
    | Some _ => (st1, Throw createUser_error)
    | None =>
        let '(st', user) := createUser_commit now2 st1 d2 (bcrypt_hash (ud_password d2)) in
        (st', Resolve user)
    end in
  (st2, (o1, o2)).

(** Every key of the user map is an identifier handed out by an earlier
    [generateUserId]. *)
Definition store_wf (st : MemoryStore) : Prop :=
  map_Forall (fun k _ => exists n, (n < userIdCounter st)%N /\ k = userIdOf n)
    (users st).

(* ================================================================= *)
(** ** Backend selector *)

(** The driver's live connection object [mongoose.connection]. *)
Record MongooseConnection := mkConnection { readyState : Z }.

(** [shouldUseMemoryStore]: [mongoose.connection.readyState !== 1]. *)
Definition shouldUseMemoryStore (connection : MongooseConnection) : bool :=
  negb (Z.eqb (readyState connection) 1).

(* ================================================================= *)
(** ** Queries of [findResources] *)

(** One filter-set of a [$or] array. *)
Record OrCondition := mkCond {
  cond_creator : option string;
  cond_isPublic : option bool
}.

(** The [query] object: [undefined] fields are [None].  [$text.$search]
    is [q_text]. *)
Record Query := mkQuery {
  q_creator : option string;
  q_category : option string;
  q_contentType : option string;
  q_isPublic : option bool;
  q_or : option (list OrCondition);
  q_text : option string
}.

Definition emptyQuery : Query := mkQuery None None None None None None.

(** The [options] object: [sort] holds one key and its order; [skip]
    and [limit] are non-negative counts. *)
Record FindOptions := mkOptions {
  o_sort : option (string * Z);
  o_skip : option nat;
  o_limit : option nat
}.

Definition noOptions : FindOptions := mkOptions None None None.

(** The callback of [query.$or.some(..)]. *)
Definition or_condition_holds (resource : Resource.t) (condition : OrCondition) : bool :=
  match str_truthy (cond_creator condition) with
  | Some c => String.eqb (Resource.creator resource) c
  | None =>
      match cond_isPublic condition with
      | Some b => Bool.eqb (Resource.isPublic resource) b
      | None => false
      end
  end.

(** [String.prototype.toLowerCase] on the ASCII letters (other characters
    are kept as they are). *)
Definition ascii_lower (c : Ascii.ascii) : Ascii.ascii :=
  let n := Ascii.nat_of_ascii c in
  if (65 <=? n) && (n <=? 90) then Ascii.ascii_of_nat (n + 32) else c.

Fixpoint toLowerCase (s : string) : string :=
  match s with
  | EmptyString => EmptyString
  | String c s' => String (ascii_lower c) (toLowerCase s')
  end.

Fixpoint startsWith (s p : string) : bool :=
  match p, s with
  | EmptyString, _ => true
  | String c p', String d s' => Ascii.eqb c d && startsWith s' p'
  | String _ _, EmptyString => false
  end.

(** [s.includes(p)]. *)
Fixpoint includes (s p : string) : bool :=
  startsWith s p ||
  match s with
  | EmptyString => false
  | String _ s' => includes s' p
  end.

(** The [$text] filter of [findResources]. *)
Definition text_matches (searchTerm : string) (r : Resource.t) : bool :=
  includes (toLowerCase (Resource.title r)) searchTerm
  || includes (toLowerCase (Resource.description r)) searchTerm
  || existsb (fun tag => includes (toLowerCase tag) searchTerm) (Resource.tags r).

(** The filtering half of [findResources], in the order of the source. *)
Definition filterResources (st : MemoryStore) (query : Query) : list Resource.t :=
  let l0 := resources st in
  let l1 := match str_truthy (q_creator query) with
            | Some c => List.filter (fun r => String.eqb (Resource.creator r) c) l0
            | None => l0 end in
  let l2 := match str_truthy (q_category query) with
            | Some c => List.filter (fun r => String.eqb (Resource.category r) c) l1
            | None => l1 end in
  let l3 := match str_truthy (q_contentType query) with
            | Some c => List.filter (fun r => String.eqb (Resource.contentType r) c) l2
            | None => l2 end in
  let l4 := match q_isPublic query with
            | Some b => List.filter (fun r => Bool.eqb (Resource.isPublic r) b) l3
            | None => l3 end in
  let l5 := match q_or query with
            | Some conds => List.filter (fun r => existsb (or_condition_holds r) conds) l4
            | None => l4 end in
  match str_truthy (q_text query) with
  | Some search =>
      let searchTerm := toLowerCase search in
      List.filter (text_matches searchTerm) l5
  | None => l5
  end.

(** [a[sortKey]] for the keys a resource has.  A [Date] is its time
    value; an array is compared through its [toString] ([join(",")]). *)
Definition field_of (r : Resource.t) (key : string) : jsval :=
  if String.eqb key "_id" then JStr (Resource._id r)
  else if String.eqb key "title" then JStr (Resource.title r)
  else if String.eqb key "description" then JStr (Resource.description r)
  else if String.eqb key "contentType" then JStr (Resource.contentType r)
  else if String.eqb key "category" then JStr (Resource.category r)
  else if String.eqb key "creator" then JStr (Resource.creator r)
  else if String.eqb key "isPublic" then JBool (Resource.isPublic r)
  else if String.eqb key "likes" then JStr (String.concat "," (Resource.likes r))
  else if String.eqb key "views" then Resource.views r
  else if String.eqb key "createdAt" then JNum (Resource.createdAt r)
  else if String.eqb key "updatedAt" then JNum (Resource.updatedAt r)
  else JUndef.

(** Code-unit order of strings. *)
Fixpoint string_lt (a b : string) : bool :=
  match a, b with
  | EmptyString, String _ _ => true
  | _, EmptyString => false
  | String c a', String d b' =>
      let m := Ascii.nat_of_ascii c in
      let n := Ascii.nat_of_ascii d in
      (m <? n) || ((m =? n) && string_lt a' b')
  end.

Definition to_number (v : jsval) : option Z :=
  match v with
  | JNum z => Some z
  | JBool b => Some (if b then 1%Z else 0%Z)
  | _ => None
  end.

(** The relational comparison [a < b]: two strings compare by code
    units; otherwise both sides are converted to numbers, and
    [undefined] or [NaN] make the comparison false.  (Converting a
    numeric string to a number is not modelled: a string against a
    non-string compares false.  A sort key gives values of one type across
    the records, so this case does not arise in [findResources].) *)
Definition js_lt (a b : jsval) : bool :=
  match a, b with
  | JStr x, JStr y => string_lt x y
  | JStr _, _ | _, JStr _ => false
  | _, _ =>
      match to_number a, to_number b with
      | Some x, Some y => Z.ltb x y
      | _, _ => false
      end
  end.

(** The comparator passed to [filteredResources.sort]. *)
Definition sort_compare (sortKey : string) (sortOrder : Z) (a b : Resource.t) : Z :=
  let aVal := field_of a sortKey in
  let bVal := field_of b sortKey in
  if Z.eqb sortOrder 1 then (if js_lt bVal aVal then 1 else -1)
  else (if js_lt aVal bVal then 1 else -1).

(** JavaScript truthiness of an optional count. *)
Definition count_truthy (o : option nat) : bool :=
  match o with Some (S _) => true | _ => false end.

(** [o || d] on an optional count. *)
Definition count_or (o : option nat) (d : nat) : nat :=
  match o with Some (S k) => S k | _ => d end.

(** [arr.slice(start, end_)] for non-negative bounds. *)
Definition slice {A} (l : list A) (start end_ : nat) : list A :=
  firstn (end_ - start) (skipn start l).

Section Find.
(** The engine's [Array.prototype.sort] (in place; modelled by its result). *)
Variable array_sort : (Resource.t -> Resource.t -> Z) -> list Resource.t -> list Resource.t.

(** [MemoryStore.findResources]. *)
Definition findResources (st : MemoryStore) (query : Query) (options : FindOptions)
  : list Resource.t :=
  let filtered := filterResources st query in
  let sorted := match o_sort options with
                | Some (sortKey, sortOrder) => array_sort (sort_compare sortKey sortOrder) filtered
                | None => filtered
                end in
  if count_truthy (o_skip options) || count_truthy (o_limit options) then
    let skip := count_or (o_skip options) 0 in
    let limit := count_or (o_limit options) (length sorted) in
    slice sorted skip (skip + limit)
  else sorted.

(** [MemoryStore.countResources]. *)
Definition countResources (st : MemoryStore) (query : Query) : nat :=
  length (findResources st query noOptions).

End Find.

(* ================================================================= *)
(** ** Request handlers over resources *)

(** The query string of [getResources] ([undefined] is [None]); the
    route validation admits [page >= 1] and [limit] in 1..100. *)
Record ListParams := mkParams {
  p_page : option nat;
  p_limit : option nat;
  p_category : option string;
  p_contentType : option string;
  p_search : option string;
  p_sortBy : option string;
  p_sortOrder : option string
}.

Definition noParams : ListParams := mkParams None None None None None None None.

(** The [query] object built by [getResources] for the requesting
    account. *)
Definition getResourcesQuery (userId userRole : string) (p : ListParams) : Query :=
  mkQuery None (str_truthy (p_category p)) (str_truthy (p_contentType p)) None
    (if String.eqb userRole "admin" then None
     else Some [mkCond (Some userId) None; mkCond None (Some true)])
    (str_truthy (p_search p)).

Section Listing.
Variable array_sort : (Resource.t -> Resource.t -> Z) -> list Resource.t -> list Resource.t.

(** The volatile-backend branch of [getResources]: the page of resources
    and the [total] of the pagination block. *)
Definition getResources_memory (st : MemoryStore) (userId userRole : string)
    (p : ListParams) : list Resource.t * nat :=
  let page := default 1 (p_page p) in
  let limit := default 20 (p_limit p) in
  let sortBy := default "createdAt" (p_sortBy p) in
  let sortOrder := default "desc" (p_sortOrder p) in
  let query := getResourcesQuery userId userRole p in
  let skip := (page - 1) * limit in
  let sort := (sortBy, if String.eqb sortOrder "desc" then (-1)%Z else 1%Z) in
  (findResources array_sort st query (mkOptions (Some sort) (Some skip) (Some limit)),
   countResources array_sort st query).
End Listing.

(** The two backends a handler can reach: the persistent collection of
    resource documents, and the volatile store. *)
Record Backends := mkBackends {
  collection : list Resource.t;
  store : MemoryStore
}.

(** Which backend served the lookup: [Persistent] when
    [ResourceModel.findById] returned, [Volatile] when it threw and the
    handler fell back to [memoryStore.findResourceById]. *)
Inductive Backend := Persistent | Volatile.

(** HTTP replies of the handlers. *)
Inductive Reply :=
  | StatusReply (status : Z)
  | ResourceReply (resource : Resource.t)
  | LikeReply (liked : bool) (likesCount : nat).

(** [findById] / [findResourceById]: the first record with the id. *)
Definition find_by_id (id : string) (l : list Resource.t) : option Resource.t :=
  List.find (fun r => String.eqb (Resource._id r) id) l.

(** Writing back the record with the id (the first one). *)
Fixpoint replace_by_id (id : string) (f : Resource.t -> Resource.t)
    (l : list Resource.t) : list Resource.t :=
  match l with
  | [] => []
  | r :: l' =>
      if String.eqb (Resource._id r) id then f r :: l' else r :: replace_by_id id f l'
  end.

Definition set_views (v : jsval) (r : Resource.t) : Resource.t :=
  Resource.mk (Resource._id r) (Resource.title r) (Resource.description r)
    (Resource.contentType r) (Resource.category r) (Resource.tags r)
    (Resource.creator r) (Resource.isPublic r) (Resource.likes r) v
    (Resource.createdAt r) (Resource.updatedAt r).

Definition set_likes (ls : list string) (r : Resource.t) : Resource.t :=
  Resource.mk (Resource._id r) (Resource.title r) (Resource.description r)
    (Resource.contentType r) (Resource.category r) (Resource.tags r)
    (Resource.creator r) (Resource.isPublic r) ls (Resource.views r)
    (Resource.createdAt r) (Resource.updatedAt r).

(** The [updatedAt] stamp of the schema option [timestamps: true]: when
    [save()] writes back a modified document, its [updatedAt] becomes the
    current time. *)
Definition set_updatedAt (t : Z) (r : Resource.t) : Resource.t :=
  Resource.mk (Resource._id r) (Resource.title r) (Resource.description r)
    (Resource.contentType r) (Resource.category r) (Resource.tags r)
    (Resource.creator r) (Resource.isPublic r) (Resource.likes r) (Resource.views r)
    (Resource.createdAt r) t.

(** [x += 1] on the values a [views] field can hold. *)
Definition js_incr (v : jsval) : jsval :=
  match v with
  | JNum z => JNum (z + 1)
  | JBool b => JNum ((if b then 1 else 0) + 1)
  | JStr s => JStr (s +:+ "1")
  | JUndef | JNaN => JNaN
  end.

Definition update_collection (b : Backend) (db : Backends)
    (f : list Resource.t -> list Resource.t) : Backends :=
  match b with
  | Persistent => mkBackends (f (collection db)) (store db)
  | Volatile =>
      let st := store db in
      mkBackends (collection db)
        (mkStore (users st) (userIdCounter st) (resourceIdCounter st) (f (resources st)))
  end.

Definition records_of (b : Backend) (db : Backends) : list Resource.t :=
  match b with
  | Persistent => collection db
  | Volatile => resources (store db)
  end.

(** [getResourceById]; [now] is the clock reading of [save()].  On the
    persistent path the document is changed and [save()] writes it back;
    the assignment [views += 1] always marks the path modified (the new
    value is never [===] the old one, not even for [NaN]), so the
    timestamps stamp [updatedAt].  On the volatile path the record
    returned by [findResourceById] is the stored object itself, so
    [views += 1] changes the store; the plain object has no [save] method,
    the call throws a [TypeError], and the outer [catch] answers 500. *)
Definition getResourceById (now : Z) (b : Backend) (db : Backends) (id userId userRole : string)
  : Backends * Reply :=
  match find_by_id id (records_of b db) with
  | None => (db, StatusReply 404)
  | Some resource =>
      let isOwner := String.eqb (Resource.creator resource) userId in
      let isPublic := Resource.isPublic resource in
      if negb isOwner && negb isPublic && negb (String.eqb userRole "admin") then
        (db, StatusReply 403)
      else if negb isOwner then
        let viewed := set_views (js_incr (Resource.views resource)) resource in
        match b with
        | Persistent =>
            let saved := set_updatedAt now viewed in
            (update_collection b db (replace_by_id id (fun _ => saved)), ResourceReply saved)
        | Volatile =>
            (update_collection b db (replace_by_id id (fun _ => viewed)), StatusReply 500)
        end
      else (db, ResourceReply resource)
  end.

(** The likes update of [likeResource]. *)
Definition toggle_like (userId : string) (likes : list string) : list string :=
  if existsb (String.eqb userId) likes
  then List.filter (fun like => negb (String.eqb like userId)) likes
  else likes ++ [userId].

(** [likeResource] (persistent backend only); [now] is the clock reading
    of [save()].  Both branches change [likes] ([filter] assigns a new
    array, [push] marks the array modified), so [updatedAt] is stamped. *)
Definition likeResource (now : Z) (db : Backends) (id userId : string) : Backends * Reply :=
  match find_by_id id (collection db) with
  | None => (db, StatusReply 404)
  | Some resource =>
      let hasLiked := existsb (String.eqb userId) (Resource.likes resource) in
      let liked := set_updatedAt now
                     (set_likes (toggle_like userId (Resource.likes resource)) resource) in
      (update_collection Persistent db (replace_by_id id (fun _ => liked)),
       LikeReply (negb hasLiked) (length (Resource.likes liked)))
  end.

(** The stored [views] and [likes] of a record. *)
Definition views_of (b : Backend) (db : Backends) (id : string) : option jsval :=
  Resource.views <$> find_by_id id (records_of b db).

Definition likes_of (db : Backends) (id : string) : option (list string) :=
  Resource.likes <$> find_by_id id (collection db).

(* ================================================================= *)
(** ** The engine's [Array.prototype.sort] on short arrays *)

(** V8's array sort (TimSort in builtins/array-sort.tq, the engine of
    Node.js) on an array of fewer than 64 elements: the minimum run length
    is then the whole length, so the sort is [CountAndMakeRun] from the
    start (a descending run, [compare(a[i], a[i-1]) < 0], is reversed in
    place) followed by [BinaryInsertionSort] of the remaining elements into
    that run.  Only this short-array path is modelled. *)
Section V8Sort.
Context {A : Type} (compare : A -> A -> Z).

(** Extends an ascending run while [compare(cur, prev) >= 0]. *)
Fixpoint run_ascending (prev : A) (l : list A) : list A * list A :=
  match l with
  | [] => ([], [])
  | x :: l' =>
      if Z.ltb (compare x prev) 0 then ([], l)
      else let '(r, rest) := run_ascending x l' in (x :: r, rest)
  end.

(** Extends a descending run while [compare(cur, prev) < 0]. *)
Fixpoint run_descending (prev : A) (l : list A) : list A * list A :=
  match l with
  | [] => ([], [])
  | x :: l' =>
      if Z.ltb (compare x prev) 0
      then let '(r, rest) := run_descending x l' in (x :: r, rest)
      else ([], l)
  end.

(** [CountAndMakeRun(0, n)]: the run, already in order, and the rest. *)
Definition countAndMakeRun (l : list A) : list A * list A :=
  match l with
  | [] => ([], [])
  | [x] => ([x], [])
  | x0 :: x1 :: l' =>
      if Z.ltb (compare x1 x0) 0
      then let '(r, rest) := run_descending x1 l' in (rev (x0 :: x1 :: r), rest)
      else let '(r, rest) := run_ascending x1 l' in (x0 :: x1 :: r, rest)
  end.

(** The binary search of [BinaryInsertionSort]: [left] ends at the
    insertion point of [pivot] in [run].  [fuel] bounds the halvings. *)
Fixpoint insertion_point (pivot : A) (run : list A) (left right fuel : nat) : nat :=
  match fuel with
  | O => left
  | S fuel' =>
      if Nat.ltb left right then
        let mid := left + Nat.div (right - left) 2 in
        match run !! mid with
        | Some m =>
            if Z.ltb (compare pivot m) 0
            then insertion_point pivot run left mid fuel'
            else insertion_point pivot run (mid + 1) right fuel'
        | None => left
        end
      else left
  end.

Definition binary_insert (run : list A) (pivot : A) : list A :=
  let pos := insertion_point pivot run 0 (length run) (S (length run)) in
  take pos run ++ pivot :: drop pos run.

Definition v8_sort_short (l : list A) : list A :=
  if Nat.ltb (length l) 2 then l
  else let '(run, rest) := countAndMakeRun l in fold_left binary_insert rest run.
End V8Sort.

(* ================================================================= *)
(** ** Generation dispatcher *)

Inductive GenerationType := TText | TImage | TAudio | TVideo.

Definition type_name (t : GenerationType) : string :=
  match t with TText => "text" | TImage => "image" | TAudio => "audio" | TVideo => "video" end.

(** [interface GenerationRequest] (the tuning fields that no adapter
    below reads are left out). *)
Record GenerationRequest := mkRequest {
  g_type : GenerationType;
  g_prompt : string;
  g_model : option string;
  g_provider : option string;
  g_imageSize : option string;
  g_educationLevel : option string;
  g_subject : option string;
  g_language : option string;
  g_tone : option string
}.

(** [interface GenerationResult]; [metadata] is the free-form object. *)
Record GenerationResult := mkResult {
  res_id : string;
  res_content : string;
  res_provider : string;
  res_model : string;
  promptTokens : Z;
  completionTokens : Z;
  totalTokens : Z;
  metadata : list (string * jsval)
}.

(** [s.length]: UTF-16 code units of a UTF-8 string (continuation bytes
    add none, a four-byte sequence adds a surrogate pair). *)
Fixpoint utf16_length (s : string) : Z :=
  match s with
  | EmptyString => 0
  | String c s' =>
      let n := Ascii.nat_of_ascii c in
      (if (128 <=? n) && (n <? 192) then 0 else if 240 <=? n then 2 else 1)
      + utf16_length s'
  end.

Definition quote : string := String (Ascii.ascii_of_nat 34) EmptyString.
Definition nl : string := String (Ascii.ascii_of_nat 10) EmptyString.

(** [a || b] on optional strings. *)
Definition str_or (o : option string) (d : string) : string :=
  default d (str_truthy o).

(** The mock text of [MockProvider.generateText]. *)
Definition mock_text_content (request : GenerationRequest) : string :=
  match g_type request with
  | TText =>
      "这是一个模拟的AI生成内容，基于您的提示词：" +:+ quote +:+ g_prompt request +:+ quote +:+ "。" +:+ nl +:+ nl
      +:+ "这是为了演示目的而生成的教学资源内容。在实际环境中，这里会是由AI模型生成的高质量教育内容。" +:+ nl +:+ nl
      +:+ "内容特点：" +:+ nl
      +:+ "- 适合" +:+ str_or (g_educationLevel request) "通用" +:+ "教育水平" +:+ nl
      +:+ "- 学科：" +:+ str_or (g_subject request) "通用" +:+ nl
      +:+ "- 语言：" +:+ str_or (g_language request) "zh-cn" +:+ nl
      +:+ "- 风格：" +:+ str_or (g_tone request) "professional" +:+ nl +:+ nl
      +:+ "请注意：这是模拟内容，实际使用时需要配置真实的AI API密钥。"
  | t => "模拟的" +:+ type_name t +:+ "内容生成完成"
  end.

Definition mock_image_data : string :=
  "data:image/svg+xml;base64,PHN2ZyB3aWR0aD0iNTEyIiBoZWlnaHQ9IjUxMiIgeG1sbnM9Imh0dHA6Ly93d3cudzMub3JnLzIwMDAvc3ZnIj4KICA8cmVjdCB3aWR0aD0iMTAwJSIgaGVpZ2h0PSIxMDAlIiBmaWxsPSIjZjBmMGYwIi8+CiAgPHRleHQgeD0iNTAlIiB5PSI1MCUiIGZvbnQtZmFtaWx5PSJBcmlhbCwgc2Fucy1zZXJpZiIgZm9udC1zaXplPSIyNCIgZmlsbD0iIzMzMyIgdGV4dC1hbmNob3I9Im1pZGRsZSIgZHk9Ii4zZW0iPk1vY2sgSW1hZ2U8L3RleHQ+Cjwvc3ZnPg==".

Section Dispatcher.
(** [Date.now()] at the response. *)
Variable now : Z.
(** The HTTP calls of the real adapters, opaque to the dispatcher. *)
Variable openai_generateText openai_generateImage claude_generateText
  : GenerationRequest -> Outcome GenerationResult.

(** [MockProvider.generateText]. *)
Definition mock_generateText (request : GenerationRequest) : Outcome GenerationResult :=
  let content := mock_text_content request in
  Resolve (mkResult ("mock_" +:+ pretty now) content "mock" "mock-model"
    (utf16_length (g_prompt request)) (utf16_length content)
    (utf16_length (g_prompt request) + utf16_length content)
    [("finishReason", JStr "stop"); ("responseTime", JNum now); ("isMock", JBool true)]).

(** [MockProvider.generateImage]. *)
Definition mock_generateImage (request : GenerationRequest) : Outcome GenerationResult :=
  Resolve (mkResult ("mock_img_" +:+ pretty now) mock_image_data "mock" "mock-image-model"
    (utf16_length (g_prompt request)) 0 (utf16_length (g_prompt request))
    [("finishReason", JStr "stop"); ("responseTime", JNum now);
     ("imageSize", JStr (str_or (g_imageSize request) "512x512")); ("isMock", JBool true)]).

(** The adapter classes; [ClaudeProvider] has no [generateImage]. *)
Inductive AIProvider := OpenAIProvider | ClaudeProvider | MockProvider.

Definition generateImage_of (p : AIProvider)
  : option (GenerationRequest -> Outcome GenerationResult) :=
  match p with
  | OpenAIProvider => Some openai_generateImage
  | ClaudeProvider => None
  | MockProvider => Some mock_generateImage
  end.

Definition generateText_of (p : AIProvider) : GenerationRequest -> Outcome GenerationResult :=
  match p with
  | OpenAIProvider => openai_generateText
  | ClaudeProvider => claude_generateText
  | MockProvider => mock_generateText
  end.

(** The process environment read by the [AIService] constructor. *)
Record Env := mkEnv { OPENAI_API_KEY : option string; CLAUDE_API_KEY : option string }.

(** The [providers] map built by [new AIService()]. *)
Definition providers (env : Env) : gmap string AIProvider :=
  let m0 : gmap string AIProvider := ∅ in
  let m1 := if str_truthy (OPENAI_API_KEY env) then <["openai" := OpenAIProvider]> m0 else m0 in
  let m2 := if str_truthy (CLAUDE_API_KEY env) then <["claude" := ClaudeProvider]> m1 else m1 in
  <["mock" := MockProvider]> m2.

(** [AIService.generateContent]. *)
Definition generateContent (env : Env) (request : GenerationRequest) : Outcome GenerationResult :=
  let providerName := str_or (g_provider request) "openai" in
  let providerName :=
    match providers env !! providerName with Some _ => providerName | None => "mock" end in
  match providers env !! providerName with
  | None => Throw ("不支持的AI提供商: " +:+ providerName)
  | Some provider =>
      match g_type request, generateImage_of provider with
      | TImage, Some generateImage => generateImage request
      | _, _ => generateText_of provider request
      end
  end.
End Dispatcher.

(** [result.metadata[key]]. *)
Definition metadata_get (key : string) (md : list (string * jsval)) : option jsval :=
  snd <$> List.find (fun kv => String.eqb (fst kv) key) md.

(* ================================================================= *)
(** ** The rest of the volatile backend *)

(** [MemoryStore.findUserByEmail].  The values of the user [Map] are
    enumerated here in the [gmap]'s order rather than in insertion order;
    the two agree on the answer whenever at most one user has the email,
    which [createUser] maintains ([users_unique] below). *)
Definition findUserByEmail (st : MemoryStore) (email : string) : option MemoryUser.t :=
  List.find (fun u => String.eqb (MemoryUser.email u) email) (map snd (map_to_list (users st))).

(** [MemoryStore.findUserById]: [this.users.get(id) || null]. *)
Definition findUserById (st : MemoryStore) (id : string) : option MemoryUser.t :=
  users st !! id.

(** No two stored users share a username or an email. *)
Definition users_unique (st : MemoryStore) : Prop :=
  forall k1 k2 u1 u2, users st !! k1 = Some u1 -> users st !! k2 = Some u2 ->
    (MemoryUser.username u1 = MemoryUser.username u2 \/ MemoryUser.email u1 = MemoryUser.email u2) ->
    k1 = k2.

(** Every user is stored under its own identifier. *)
Definition ids_match (st : MemoryStore) : Prop :=
  map_Forall (fun k u => MemoryUser._id u = k) (users st).


(** A [Partial<MemoryUser>] update: [Some] for each key the object
    carries ([updatedAt] is overwritten by the method in any case). *)
Record UserUpdate := mkUserUpdate {
  uu_id : option string;
  uu_username : option string;
  uu_email : option string;
  uu_password : option string;
  uu_role : option string;
  uu_profile : option Profile;
  uu_createdAt : option Z;
  uu_lastLoginAt : option Z
}.

Definition noUserUpdate : UserUpdate := mkUserUpdate None None None None None None None None.

(** [{ ...user, ...updateData, updatedAt: now }]. *)
Definition merge_user (now : Z) (user : MemoryUser.t) (upd : UserUpdate) : MemoryUser.t :=
  MemoryUser.mk (default (MemoryUser._id user) (uu_id upd))
    (default (MemoryUser.username user) (uu_username upd))
    (default (MemoryUser.email user) (uu_email upd))
    (default (MemoryUser.password user) (uu_password upd))
    (default (MemoryUser.role user) (uu_role upd))
    (default (MemoryUser.profile user) (uu_profile upd))
    (default (MemoryUser.createdAt user) (uu_createdAt upd))
    now
    (match uu_lastLoginAt upd with Some t => Some t | None => MemoryUser.lastLoginAt user end).

Definition set_users (st : MemoryStore) (m : gmap string MemoryUser.t) : MemoryStore :=
  mkStore m (userIdCounter st) (resourceIdCounter st) (resources st).

Definition set_resources (st : MemoryStore) (l : list Resource.t) : MemoryStore :=
  mkStore (users st) (userIdCounter st) (resourceIdCounter st) l.

(** [MemoryStore.updateUser]. *)
Definition updateUser (now : Z) (st : MemoryStore) (id : string) (upd : UserUpdate)
  : MemoryStore * option MemoryUser.t :=
  match users st !! id with
  | None => (st, None)
  | Some user =>
      let updatedUser := merge_user now user upd in
      (set_users st (<[id := updatedUser]> (users st)), Some updatedUser)
  end.

(** [MemoryStore.updateUserPassword]. *)
Definition updateUserPassword (bcrypt_hash : string -> string) (now : Z) (st : MemoryStore)
    (id newPassword : string) : MemoryStore * bool :=
  match users st !! id with
  | None => (st, false)
  | Some user =>
      let updatedUser := merge_user now user
            (mkUserUpdate None None None (Some (bcrypt_hash newPassword)) None None None None) in
      (set_users st (<[id := updatedUser]> (users st)), true)
  end.

(** The argument of [createResource]: [{ ...req.body, creator: userId }]
    after its JSON deep copy.  A body is parsed JSON, so the copy gives
    back equal values; a body may carry an [_id] of its own, which the
    spread writes over the generated one. *)
Record ResourceData := mkResourceData {
  rd_id : option string;
  rd_title : string;
  rd_description : string;
  rd_contentType : string;
  rd_category : string;
  rd_tags : list string;
  rd_creator : string;
  rd_isPublic : bool;
  rd_likes : list string;
  rd_views : jsval
}.

Definition resourceIdOf (n : N) : string := "resource_" +:+ pretty n.

(** [MemoryStore.createResource]. *)
Definition createResource (now : Z) (st : MemoryStore) (data : ResourceData)
  : MemoryStore * Resource.t :=
  let id := resourceIdOf (resourceIdCounter st) in
  let resource := Resource.mk (default id (rd_id data)) (rd_title data) (rd_description data)
        (rd_contentType data) (rd_category data) (rd_tags data) (rd_creator data)
        (rd_isPublic data) (rd_likes data) (rd_views data) now now in
  (mkStore (users st) (userIdCounter st) (resourceIdCounter st + 1) (resources st ++ [resource]),
   resource).

(** A string of the given bytes. *)
Fixpoint bytes (l : list nat) : string :=
  match l with
  | [] => EmptyString
  | b :: l' => String (Ascii.ascii_of_nat b) (bytes l')
  end.

(** The characters of the class [\s] beyond ASCII, in UTF-8: U+00A0,
    U+1680, U+2000..U+200A, U+2028, U+2029, U+202F, U+205F, U+3000,
    U+FEFF. *)
Definition unicode_spaces : list string :=
  [bytes [194; 160]; bytes [225; 154; 128]]
  ++ map (fun k => bytes [226; 128; 128 + k]) (seq 0 11)
  ++ [bytes [226; 128; 168]; bytes [226; 128; 169]; bytes [226; 128; 175];
      bytes [226; 129; 159]; bytes [227; 128; 128]; bytes [239; 187; 191]].

(** An ASCII character of [[a-zA-Z0-9\s]]. *)
Definition ascii_word_or_space (c : Ascii.ascii) : bool :=
  let n := Ascii.nat_of_ascii c in
  ((65 <=? n) && (n <=? 90)) || ((97 <=? n) && (n <=? 122)) || ((48 <=? n) && (n <=? 57))
  || ((9 <=? n) && (n <=? 13)) || (n =? 32).

(** [s.match(/[a-zA-Z0-9\s]/)] is truthy. *)
Fixpoint matches_word_or_space (s : string) : bool :=
  match s with
  | EmptyString => false
  | String c s' =>
      ascii_word_or_space c || existsb (startsWith s) unicode_spaces
      || matches_word_or_space s'
  end.

(** A byte that is ['?'] or a byte outside ASCII that does not begin one
    of [unicode_spaces]: a title made of such bytes (Chinese text, for
    instance, whose characters begin with bytes 0xE4 to 0xE9) has no
    match of [/[a-zA-Z0-9\s]/]. *)
Definition outside_class_byte (c : Ascii.ascii) : bool :=
  let n := Ascii.nat_of_ascii c in
  (n =? 63)
  || ((128 <=? n) && negb ((n =? 194) || (n =? 225) || (n =? 226) || (n =? 227) || (n =? 239))).

(** The test of [cleanupCorruptedResources]. *)
Definition hasCorruptedTitle (r : Resource.t) : bool :=
  includes (Resource.title r) "?" && negb (matches_word_or_space (Resource.title r)).

(** [MemoryStore.cleanupCorruptedResources]. *)
Definition cleanupCorruptedResources (st : MemoryStore) : MemoryStore :=
  set_resources st (List.filter (fun r => negb (hasCorruptedTitle r)) (resources st)).

(** [MemoryStore.findResourceById]. *)
Definition findResourceById (st : MemoryStore) (id : string) : option Resource.t :=
  find_by_id id (resources st).

(** A [Partial<MemoryResource>] update: [Some] for each key the object
    carries. *)
Record ResourceUpdate := mkResourceUpdate {
  ru_id : option string;
  ru_title : option string;
  ru_description : option string;
  ru_contentType : option string;
  ru_category : option string;
  ru_tags : option (list string);
  ru_creator : option string;
  ru_isPublic : option bool;
  ru_likes : option (list string);
  ru_views : option jsval;
  ru_createdAt : option Z
}.

(** [{ ...this.resources[index], ...updateData, updatedAt: now }]. *)
Definition merge_resource (now : Z) (r : Resource.t) (upd : ResourceUpdate) : Resource.t :=
  Resource.mk (default (Resource._id r) (ru_id upd)) (default (Resource.title r) (ru_title upd))
    (default (Resource.description r) (ru_description upd))
    (default (Resource.contentType r) (ru_contentType upd))
    (default (Resource.category r) (ru_category upd)) (default (Resource.tags r) (ru_tags upd))
    (default (Resource.creator r) (ru_creator upd)) (default (Resource.isPublic r) (ru_isPublic upd))
    (default (Resource.likes r) (ru_likes upd)) (default (Resource.views r) (ru_views upd))
    (default (Resource.createdAt r) (ru_createdAt upd)) now.

(** [MemoryStore.updateResource]: [findIndex], then the write at that
    index. *)
Definition updateResource (now : Z) (st : MemoryStore) (id : string) (upd : ResourceUpdate)
  : MemoryStore * option Resource.t :=
  match find_by_id id (resources st) with
  | None => (st, None)
  | Some r =>
      (set_resources st (replace_by_id id (fun r => merge_resource now r upd) (resources st)),
       Some (merge_resource now r upd))
  end.

(** [splice(findIndex(..), 1)]: drops the first record with the id. *)
Fixpoint remove_by_id (id : string) (l : list Resource.t) : list Resource.t :=
  match l with
  | [] => []
  | r :: l' => if String.eqb (Resource._id r) id then l' else r :: remove_by_id id l'
  end.

(** [MemoryStore.deleteResource]. *)
Definition deleteResource (st : MemoryStore) (id : string) : MemoryStore * bool :=
  match find_by_id id (resources st) with
  | None => (st, false)
  | Some _ => (set_resources st (remove_by_id id (resources st)), true)
  end.

(** Every stored resource carries an identifier handed out by an earlier
    [generateResourceId], and no two share one. *)
Definition resources_wf (st : MemoryStore) : Prop :=
  NoDup (map Resource._id (resources st)) /\
  Forall (fun r => exists n, (n < resourceIdCounter st)%N /\ Resource._id r = resourceIdOf n)
    (resources st).

(* ================================================================= *)
(** ** Handlers *)

Definition set_isPublic (b : bool) (r : Resource.t) : Resource.t :=
  Resource.mk (Resource._id r) (Resource.title r) (Resource.description r)
    (Resource.contentType r) (Resource.category r) (Resource.tags r)
    (Resource.creator r) b (Resource.likes r) (Resource.views r)
    (Resource.createdAt r) (Resource.updatedAt r).

(** A JSON reply: the status code, the [message] and the [data] payload
    ([None] when the reply carries none). *)
Record Response (A : Type) := mkResponse { code : Z; message : string; body : option A }.
Arguments mkResponse {A} code message body.
Arguments code {A} r.
Arguments message {A} r.
Arguments body {A} r.

Definition fail {A} (c : Z) (m : string) : Response A := mkResponse c m None.
Definition ok {A} (c : Z) (m : string) (x : A) : Response A := mkResponse c m (Some x).

(** The controllers of resources, generations and accounts.  Inside each
    module a handler has the name of its exported function; in its body
    the name of the handler being defined still denotes the store method
    or service function of that name defined above. *)
Module AiController.

Definition deleteResource_missing : string := "删除失败，资源可能已不存在".

(** [deleteResource].  [b] says which backend answered the lookup, as for
    [getResourceById]; [findByIdAndDelete] removes the document with the
    id. *)
Definition deleteResource (b : Backend) (db : Backends) (id userId userRole : string)
  : Backends * Response unit :=
  match find_by_id id (records_of b db) with
  | None => (db, fail 404 "资源不存在")
  | Some resource =>
      let isOwner := String.eqb (Resource.creator resource) userId in
      if negb isOwner && negb (String.eqb userRole "admin") then
        (db, fail 403 "没有权限删除此资源")
      else
        match b with
        | Persistent =>
            (update_collection Persistent db (remove_by_id id), ok 200 "资源删除成功" tt)
        | Volatile =>
            let '(st', deleted) := deleteResource (store db) id in
            if negb deleted then (mkBackends (collection db) st', fail 404 deleteResource_missing)
            else (mkBackends (collection db) st', ok 200 "资源删除成功" tt)
        end
  end.

(** [publishResource] (persistent backend only); [now] is the clock
    reading of [save()].  Setting [isPublic] to the value it already has
    does not mark the document modified, and [save()] then leaves
    [updatedAt] as it was. *)
Definition publishResource (now : Z) (db : Backends) (id userId : string)
  : Backends * Response Resource.t :=
  match find_by_id id (collection db) with
  | None => (db, fail 404 "资源不存在")
  | Some resource =>
      if negb (String.eqb (Resource.creator resource) userId) then
        (db, fail 403 "只能发布自己的资源")
      else
        let published := if Resource.isPublic resource then resource
                         else set_updatedAt now (set_isPublic true resource) in
        (update_collection Persistent db (replace_by_id id (fun _ => published)),
         ok 200 "资源发布成功" published)
  end.

(** [createResource] when the document save throws and the volatile
    store takes the record: [{ ...req.body, creator: userId }]. *)
Definition createResource (now : Z) (st : MemoryStore) (userId : string) (reqBody : ResourceData)
  : MemoryStore * Response Resource.t :=
  let resourceData := mkResourceData (rd_id reqBody) (rd_title reqBody) (rd_description reqBody)
        (rd_contentType reqBody) (rd_category reqBody) (rd_tags reqBody) userId
        (rd_isPublic reqBody) (rd_likes reqBody) (rd_views reqBody) in
  let '(st', resource) := createResource now st resourceData in
  (st', ok 201 "资源创建成功" resource).

End AiController.

(** [interface MemoryGenerationResult]. *)
Module MemoryGenerationResult.
Record t := mk {
  _id : string;
  userId : string;
  prompt : string;
  contentType : string;
  content : string;
  status : string;
  provider : option string;
  model : option string;
  metadata : list (string * jsval);
  createdAt : Z;
  updatedAt : Z
}.
End MemoryGenerationResult.

(** [memoryStore.generationResults]. *)
Definition GenerationStore := list MemoryGenerationResult.t.

(** [aiService.isProviderAvailable] on the service built from [env]:
    [providers.has(provider)]. *)
Definition isProviderAvailable (env : Env) (provider : string) : bool :=
  bool_decide (is_Some (providers env !! provider)).

(** The query of [getGenerationHistory] once the route's validation has
    passed: [page >= 1] and [1 <= limit <= 100] (defaults 1 and 20). *)
Record HistoryParams := mkHistoryParams {
  h_page : option nat;
  h_limit : option nat;
  h_provider : option string;
  h_type : option string;
  h_status : option string
}.

(** The filter of the volatile path of [getGenerationHistory]. *)
Definition history_keeps (userId : string) (p : HistoryParams)
    (result : MemoryGenerationResult.t) : bool :=
  String.eqb (MemoryGenerationResult.userId result) userId
  && match str_truthy (h_provider p) with
     | Some provider => bool_decide (MemoryGenerationResult.provider result = Some provider)
     | None => true
     end
  && match str_truthy (h_type p) with
     | Some type => String.eqb (MemoryGenerationResult.contentType result) type
     | None => true
     end
  && match str_truthy (h_status p) with
     | Some status => String.eqb (MemoryGenerationResult.status result) status
     | None => true
     end.

(** [pagination] of the reply. *)
Record Pagination := mkPagination { current : nat; pageSize : nat; total : nat; totalPages : nat }.

Module GenerationHandlers.
Section Handlers.
(** [Date.now()] at the request. *)
Variable now : Z.
Variable openai_generateText openai_generateImage claude_generateText
  : GenerationRequest -> Outcome GenerationResult.
(** The engine's [Array.prototype.sort]. *)
Variable array_sort
  : (MemoryGenerationResult.t -> MemoryGenerationResult.t -> Z) ->
    list MemoryGenerationResult.t -> list MemoryGenerationResult.t.

(** [generateContent] of the controller when saving the document throws
    and the record goes to [memoryStore.generationResults]: the record
    has no [provider] and no [model] key. *)
Definition generateContent (env : Env) (gens : GenerationStore) (userId : string)
    (generationRequest : GenerationRequest)
  : GenerationStore * Response (string * GenerationResult) :=
  let serve :=
    match generateContent now openai_generateText openai_generateImage
            claude_generateText env generationRequest with
    | Throw m => (gens, fail 500 m)
    | Resolve result =>
        let generationResult :=
          MemoryGenerationResult.mk (pretty now) userId (g_prompt generationRequest)
            (type_name (g_type generationRequest)) (res_content result) "completed"
            None None (metadata result) now now in
        (gens ++ [generationResult],
         ok 200 "内容生成成功" (MemoryGenerationResult._id generationResult, result))
    end in
  match str_truthy (g_provider generationRequest) with
  | Some provider =>
      if negb (isProviderAvailable env provider)
      then (gens, fail 400 ("AI提供商 " +:+ provider +:+ " 不可用"))
      else serve
  | None => serve
  end.

(** The volatile path of [getGenerationHistory]: newest first, then the
    page. *)
Definition getGenerationHistory (gens : GenerationStore) (userId : string) (p : HistoryParams)
  : Response (list MemoryGenerationResult.t * Pagination) :=
  let page := default 1 (h_page p) in
  let limit := default 20 (h_limit p) in
  let skip := (page - 1) * limit in
  let filteredResults := List.filter (history_keeps userId p) gens in
  let total := length filteredResults in
  let results :=
    slice (array_sort (fun a b => MemoryGenerationResult.createdAt b
                                  - MemoryGenerationResult.createdAt a)%Z filteredResults)
      skip (skip + limit) in
  ok 200 "" (results, mkPagination page limit total ((total + limit - 1) / limit)).

End Handlers.

Definition owned (id userId : string) (r : MemoryGenerationResult.t) : bool :=
  String.eqb (MemoryGenerationResult._id r) id && String.eqb (MemoryGenerationResult.userId r) userId.

(** The volatile path of [getGenerationById]. *)
Definition getGenerationById (gens : GenerationStore) (id userId : string)
  : Response MemoryGenerationResult.t :=
  match List.find (owned id userId) gens with
  | None => fail 404 "生成记录不存在"
  | Some result => ok 200 "" result
  end.

(** [splice(findIndex(..), 1)] with the predicate of the handler. *)
Fixpoint remove_first {A} (p : A -> bool) (l : list A) : list A :=
  match l with
  | [] => []
  | x :: l' => if p x then l' else x :: remove_first p l'
  end.

(** The volatile path of [deleteGenerationResult]. *)
Definition deleteGenerationResult (gens : GenerationStore) (id userId : string)
  : GenerationStore * Response unit :=
  match List.find (owned id userId) gens with
  | None => (gens, fail 404 "生成记录不存在")
  | Some _ => (remove_first (owned id userId) gens, ok 200 "删除成功" tt)
  end.

End GenerationHandlers.

Module AuthController.
Section Auth.
(** [bcrypt.hash(.., 10)], [bcrypt.compare], [generateToken] of the
    middleware, and [new Date()]. *)
Variable bcrypt_hash : string -> string.
Variable bcrypt_compare : string -> string -> bool.
Variable generateToken : string -> string.
Variable now : Z.

(** [req.body] of [register]; [role] defaults to ['student']. *)
Record RegisterBody := mkRegisterBody {
  rb_username : string;
  rb_email : string;
  rb_password : string;
  rb_role : option string
}.

(** The volatile path of [register].  The reply's [data.user] is made of
    fields of the returned user, and [data.token] of its identifier. *)
Definition register (st : MemoryStore) (reqBody : RegisterBody)
  : MemoryStore * Response (MemoryUser.t * string) :=
  let role := default "student" (rb_role reqBody) in
  match createUser bcrypt_hash now st
          (mkUserData (rb_username reqBody) (rb_email reqBody) (rb_password reqBody) role) with
  | (st', Throw m) => (st', fail 400 m)
  | (st', Resolve user) => (st', ok 201 "注册成功" (user, generateToken (MemoryUser._id user)))
  end.

Definition login_error : string := "邮箱或密码错误".

(** The volatile path of [login].  The reply is built from [user] as
    [findUserByEmail] returned it, before the [lastLoginAt] update. *)
Definition login (st : MemoryStore) (email password : string)
  : MemoryStore * Response (MemoryUser.t * string) :=
  match findUserByEmail st email with
  | None => (st, fail 401 login_error)
  | Some user =>
      if negb (bcrypt_compare password (MemoryUser.password user)) then (st, fail 401 login_error)
      else
        let '(st', _) := updateUser now st (MemoryUser._id user)
                           (mkUserUpdate None None None None None None None (Some now)) in
        (st', ok 200 "登录成功" (user, generateToken (MemoryUser._id user)))
  end.

(** [req.body] of [updateProfile]. *)
Record ProfileBody := mkProfileBody {
  pb_displayName : option string;
  pb_bio : option string;
  pb_institution : option string;
  pb_subjects : option (list string);
  pb_preferences : option Preferences
}.

(** The volatile path of [updateProfile]; [reqUser] is [req.user], the
    account the middleware authenticated.  An array or an object is
    truthy even when empty. *)
Definition updateProfile (st : MemoryStore) (reqUser : MemoryUser.t) (reqBody : ProfileBody)
  : MemoryStore * Response MemoryUser.t :=
  let old := MemoryUser.profile reqUser in
  let profile := mkProfile (str_or (pb_displayName reqBody) (displayName old))
        (str_or (pb_bio reqBody) (bio old)) (str_or (pb_institution reqBody) (institution old))
        (default (subjects old) (pb_subjects reqBody))
        (default (preferences old) (pb_preferences reqBody)) in
  match updateUser now st (MemoryUser._id reqUser)
          (mkUserUpdate None None None None None (Some profile) None None) with
  | (st', None) => (st', fail 404 "用户不存在")
  | (st', Some updatedUser) => (st', ok 200 "更新成功" updatedUser)
  end.

End Auth.
End AuthController.

(* ================================================================= *)
(** ** Route validation *)

(** [isHexadecimal] of validator.js: [/^(0x|0h)?[0-9a-fA-F]+$/i]. *)
Definition hex_digit (c : Ascii.ascii) : bool :=
  let n := Ascii.nat_of_ascii c in
  ((48 <=? n) && (n <=? 57)) || ((65 <=? n) && (n <=? 70)) || ((97 <=? n) && (n <=? 102)).

Fixpoint all_chars (p : Ascii.ascii -> bool) (s : string) : bool :=
  match s with
  | EmptyString => true
  | String c s' => p c && all_chars p s'
  end.

Definition isHexadecimal (s : string) : bool :=
  let body := if startsWith (toLowerCase s) "0x" || startsWith (toLowerCase s) "0h"
              then match s with String _ (String _ rest) => rest | _ => s end else s in
  negb (String.eqb body "") && all_chars hex_digit body.

(** [isMongoId]: hexadecimal and 24 characters long, the rule of
    [param('id')] on the generation routes. *)
Definition isMongoId (s : string) : bool :=
  isHexadecimal s && (String.length s =? 24).

(** The [custom] rule of [param('id')] on the resource routes:
    [/^[0-9a-fA-F]{24}$/] or [/^[a-zA-Z0-9_-]+$/]. *)
Definition memory_id_char (c : Ascii.ascii) : bool :=
  let n := Ascii.nat_of_ascii c in
  ((65 <=? n) && (n <=? 90)) || ((97 <=? n) && (n <=? 122)) || ((48 <=? n) && (n <=? 57))
  || (n =? 95) || (n =? 45).

Definition resourceIdValid (s : string) : bool :=
  ((String.length s =? 24) && all_chars hex_digit s)
  || (negb (String.eqb s "") && all_chars memory_id_char s).

(* ================================================================= *)
(** ** Sample data *)

Definition demo_teacher : UserData :=
  mkUserData "teacher" "teacher@example.com" "Teacher123" "teacher".

Definition demo_resource (id creator : string) (isPublic : bool) (t : Z) : Resource.t :=
  Resource.mk id "Fractions" "An introduction" "text" "lesson_plan" ["math"]
    creator isPublic [] (JNum 0) t t.

Definition demo_store : MemoryStore :=
  mkStore ∅ 1 3 [demo_resource "resource_1" "user_1" false 5;
                 demo_resource "resource_2" "user_2" true 5].

Definition claude_text_answer : GenerationResult :=
  mkResult "claude_1" "A labelled diagram of a plant cell, described in words." "claude"
    "claude-3-sonnet-20240229" 12 40 52
    [("finishReason", JStr "end_turn"); ("responseTime", JNum 0)].

Definition image_request_for_claude : GenerationRequest :=
  mkRequest TImage "plant cell diagram" None (Some "claude") None None None None None.

Definition demo_token (id : string) : string := "token_" +:+ id.

Definition second_teacher : UserData :=
  mkUserData "teacher2" "teacher@example.com" "Other456" "teacher".

Definition demo_register_body : AuthController.RegisterBody :=
  AuthController.mkRegisterBody "teacher" "teacher@example.com" "Teacher123" (Some "teacher").

Definition demo_teacher_user : MemoryUser.t :=
  MemoryUser.mk "user_1" "teacher" "teacher@example.com" "Teacher123" "teacher"
    (mkProfile "teacher" "" "" [] (mkPreferences "zh-CN" "light" [] [])) 0 0 None.

Definition demo_registered : MemoryStore :=
  fst (AuthController.register (fun s => s) demo_token 0 initialStore demo_register_body).

Definition demo_resource_data (id : option string) : ResourceData :=
  mkResourceData id "Fractions" "An introduction" "text" "lesson_plan" ["math"] "user_1" false [] (JNum 0).

Definition corrupted_resource : Resource.t :=
  Resource.mk "resource_3" "???" "" "text" "lesson_plan" [] "user_1" true [] (JNum 0) 5 5.

Definition retitle (title : string) : ResourceUpdate :=
  mkResourceUpdate None (Some title) None None None None None None None None None.

Definition generation_request (provider : string) : GenerationRequest :=
  mkRequest TText "photosynthesis" None (Some provider) None None None None None.

Definition no_generateText : GenerationRequest -> Outcome GenerationResult :=
  fun _ => Throw "OpenAI内容生成失败".

Definition one_generation : GenerationStore :=
  fst (GenerationHandlers.generateContent 0 no_generateText no_generateText no_generateText
         (mkEnv None None) [] "user_1" (generation_request "mock")).

(* ================================================================= *)
(** * Properties *)

(* ----------------------------------------------------------------- *)
(** ** Account creation in the volatile backend *)

Lemma userIdOf_inj (n1 n2 : N) : userIdOf n1 = userIdOf n2 -> n1 = n2.
Proof. unfold userIdOf. intros H. apply (inj (String.app _)) in H. by apply (inj pretty) in H. Qed.

Lemma in_map_values {V} (m : gmap string V) (v : V) :
  In v (map snd (map_to_list m)) <-> exists k, m !! k = Some v.
Proof.
  rewrite in_map_iff. split.
  - intros [[k v'] [Hv Hin]]. simpl in Hv. subst v'. exists k.
    apply elem_of_map_to_list. by apply list_elem_of_In.
  - intros [k Hk]. exists (k, v). split; [done|].
    apply list_elem_of_In. by apply elem_of_map_to_list.
Qed.

Lemma find_values_none {V} (p : V -> bool) (m : gmap string V) :
  (forall k v, m !! k = Some v -> p v = false) ->
  List.find p (map snd (map_to_list m)) = None.
Proof.
  intros Hall. destruct (List.find p _) as [v|] eqn:Hf; [|done].
  apply find_some in Hf as [Hin Hp]. apply in_map_values in Hin as [k Hk].
  by rewrite (Hall k v Hk) in Hp.
Qed.

Lemma find_values_some {V} (p : V -> bool) (m : gmap string V) k v :
  m !! k = Some v -> p v = true ->
  exists w, List.find p (map snd (map_to_list m)) = Some w.
Proof.
  intros Hk Hp. destruct (List.find p _) as [w|] eqn:Hf; [by eauto|].
  exfalso. assert (Hin : In v (map snd (map_to_list m))) by (apply in_map_values; eauto).
  pose proof (find_none _ _ Hf v Hin) as Hn. congruence.
Qed.

Lemma store_wf_initial : store_wf initialStore.
Proof. apply map_Forall_empty. Qed.

(** The store invariant is kept by [createUser]. *)
Lemma createUser_wf bcrypt_hash now st d :
  store_wf st -> store_wf (fst (createUser bcrypt_hash now st d)).
Proof.
  unfold createUser, createUser_check, createUser_commit. intros Hwf.
  destruct (List.find _ _); simpl; [done|].
  unfold store_wf; simpl. apply map_Forall_insert_2.
  - exists (userIdCounter st). split; [lia|done].
  - eapply map_Forall_impl; [exact Hwf|]. simpl.
    intros k _ [n [Hn ->]]. exists n. split; [lia|done].
Qed.

(** C1.  [createUser] refuses a username or an email already in the
    store with the error '用户名或邮箱已存在' and leaves the store (user
    map and id counter) as it was; otherwise, in a store built by
    [generateUserId], it succeeds and inserts exactly one new user under a
    fresh identifier. *)
Theorem createUser_uniqueness (bcrypt_hash : string -> string) (now : Z)
    (st : MemoryStore) (d : UserData) :
  ((exists k u, users st !! k = Some u /\
       (MemoryUser.username u = ud_username d \/ MemoryUser.email u = ud_email d)) ->
   createUser bcrypt_hash now st d = (st, Throw createUser_error))
  /\
  (store_wf st ->
   (forall k u, users st !! k = Some u ->
       MemoryUser.username u <> ud_username d /\ MemoryUser.email u <> ud_email d) ->
   exists u st',
     createUser bcrypt_hash now st d = (st', Resolve u) /\
     users st !! MemoryUser._id u = None /\
     users st' = <[MemoryUser._id u := u]> (users st) /\
     size (users st') = S (size (users st)) /\
     userIdCounter st' = (userIdCounter st + 1)%N /\
     MemoryUser.username u = ud_username d /\ MemoryUser.email u = ud_email d).
Proof.
  split.
  - intros (k & u & Hk & Hclash). unfold createUser, createUser_check, createUser_commit.
    destruct (find_values_some (user_clash d) (users st) k u Hk) as [w ->]; [|done].
    unfold user_clash. apply orb_true_iff.
    destruct Hclash as [H|H]; [right|left]; apply String.eqb_eq; done.
  - intros Hwf Hfresh. unfold createUser, createUser_check, createUser_commit.
    rewrite find_values_none.
    2:{ intros k v Hk. destruct (Hfresh k v Hk) as [Hu He]. unfold user_clash.
        apply orb_false_iff. split; apply String.eqb_neq; done. }
    simpl. eexists _, _. split; [reflexivity|]. simpl.
    assert (Hnone : users st !! userIdOf (userIdCounter st) = None).
    { destruct (users st !! userIdOf (userIdCounter st)) as [u|] eqn:Hu; [|done].
      destruct (Hwf _ _ Hu) as [n [Hn Heq]]. apply userIdOf_inj in Heq. lia. }
    repeat split; try done. by rewrite map_size_insert_None.
Qed.

Lemma createUser_uniqueness_witness :
  createUser (fun s => s) 0 (fst (createUser (fun s => s) 0 initialStore demo_teacher))
    (mkUserData "t1" "teacher@example.com" "Aa123456" "student")
  = (fst (createUser (fun s => s) 0 initialStore demo_teacher), Throw createUser_error)
  /\ exists u st',
     createUser (fun s => s) 0 initialStore demo_teacher = (st', Resolve u) /\
     users initialStore !! MemoryUser._id u = None /\
     users st' = <[MemoryUser._id u := u]> (users initialStore) /\
     size (users st') = S (size (users initialStore)) /\
     userIdCounter st' = (userIdCounter initialStore + 1)%N /\
     MemoryUser.username u = ud_username demo_teacher /\
     MemoryUser.email u = ud_email demo_teacher.
Proof.
  split.
  - apply (proj1 (createUser_uniqueness (fun s => s) 0
             (fst (createUser (fun s => s) 0 initialStore demo_teacher))
             (mkUserData "t1" "teacher@example.com" "Aa123456" "student"))).
    vm_compute. eexists "user_1", _. split; [reflexivity|]. right; reflexivity.
  - apply (proj2 (createUser_uniqueness (fun s => s) 0 initialStore demo_teacher)).
    + apply map_Forall_empty.
    + intros k u Hk. vm_compute in Hk. discriminate.
Defined.

(* ----------------------------------------------------------------- *)
(** ** Backend selector *)

(** C9.  [shouldUseMemoryStore] is a total boolean function of the
    driver's live [readyState] alone: it answers [true] exactly when the
    state is not 1 (connected). *)
Theorem shouldUseMemoryStore_readyState (connection : MongooseConnection) :
  shouldUseMemoryStore connection = negb (Z.eqb (readyState connection) 1) /\
  (shouldUseMemoryStore connection = true <-> readyState connection <> 1%Z).
Proof.
  split; [reflexivity|]. unfold shouldUseMemoryStore.
  rewrite negb_true_iff, Z.eqb_neq. done.
Qed.

(* ----------------------------------------------------------------- *)
(** ** Listing: visibility, totals, pagination, sorting *)

Lemma findResources_noOptions array_sort st query :
  findResources array_sort st query noOptions = filterResources st query.
Proof. reflexivity. Qed.

(** C3.  With no category, content-type or search parameter, the
    volatile backend's [findResources] on the query built by
    [getResources] keeps exactly the stored records that the account
    created, the public ones, and all of them for an admin.  (Account
    identifiers are never empty.) *)
Theorem getResources_visibility array_sort (st : MemoryStore)
    (userId userRole : string) (r : Resource.t) :
  userId <> "" ->
  In r (findResources array_sort st (getResourcesQuery userId userRole noParams) noOptions)
  <-> In r (resources st) /\
      (Resource.creator r = userId \/ Resource.isPublic r = true \/ userRole = "admin").
Proof.
  intros Hid. rewrite findResources_noOptions.
  unfold filterResources, getResourcesQuery; simpl.
  destruct (String.eqb userRole "admin") eqn:Hadm.
  - apply String.eqb_eq in Hadm. subst. split; [intros H; by auto|by intros [H _]].
  - apply String.eqb_neq in Hadm. rewrite filter_In.
    unfold or_condition_holds; simpl.
    destruct (String.eqb userId "") eqn:He; [by apply String.eqb_eq in He|].
    rewrite !orb_false_r, orb_true_iff, String.eqb_eq, Bool.eqb_true_iff.
    split.
    + intros [Hin H]. split; [done|]. destruct H; auto.
    + intros [Hin [H|[H|H]]]; [split; auto..|done].
Qed.

Lemma getResources_visibility_witness :
  "user_1" <> "" /\
  (In (demo_resource "resource_1" "user_1" false 5)
      (findResources v8_sort_short demo_store (getResourcesQuery "user_1" "student" noParams) noOptions)
   <-> In (demo_resource "resource_1" "user_1" false 5) (resources demo_store) /\
       (Resource.creator (demo_resource "resource_1" "user_1" false 5) = "user_1"
        \/ Resource.isPublic (demo_resource "resource_1" "user_1" false 5) = true
        \/ "student" = "admin")).
Proof.
  assert (H : "user_1" <> "") by discriminate.
  split; [exact H|]. exact (getResources_visibility v8_sort_short demo_store "user_1" "student" _ H).
Defined.

(** C10.  [countResources] is the length of the unpaginated, unsorted
    [findResources], that is the number of records matching the query;
    in particular the [total] that [getResources] reports from the
    volatile backend is that number. *)
Theorem countResources_total array_sort (st : MemoryStore) (query : Query) :
  countResources array_sort st query = length (findResources array_sort st query noOptions) /\
  countResources array_sort st query = length (filterResources st query) /\
  (forall userId userRole p,
     snd (getResources_memory array_sort st userId userRole p)
     = length (filterResources st (getResourcesQuery userId userRole p))).
Proof. split; [reflexivity|]. split; [reflexivity|]. intros; reflexivity. Qed.

Lemma firstn_app_skipn {A} (l : list A) (a b : nat) :
  firstn a l ++ firstn b (skipn a l) = firstn (a + b) l.
Proof.
  revert l. induction a as [|a IH]; intros l; [done|].
  destruct l as [|x l]; simpl; [by rewrite firstn_nil|]. by rewrite IH.
Qed.

Lemma findResources_paged array_sort st query sort k n :
  1 <= n ->
  findResources array_sort st query (mkOptions sort (Some k) (Some n))
  = slice (findResources array_sort st query (mkOptions sort None None)) k (k + n).
Proof.
  intros Hn. destruct n as [|n]; [lia|].
  unfold findResources; simpl. rewrite orb_true_r.
  destruct k; reflexivity.
Qed.

(** C7 (as the code has it).  For every [k] and every positive [n],
    the pages [skip=k, limit=n] and [skip=k+n, limit=n] are the
    consecutive slices [k, k+n) and [k+n, k+2n) of one filtered and
    sorted list, and together they are the page [skip=k, limit=2n]. *)
Theorem findResources_consecutive_pages array_sort (st : MemoryStore) (query : Query)
    (sort : option (string * Z)) (k n : nat) :
  1 <= n ->
  exists L,
    findResources array_sort st query (mkOptions sort (Some k) (Some n)) = slice L k (k + n) /\
    findResources array_sort st query (mkOptions sort (Some (k + n)) (Some n))
      = slice L (k + n) (k + n + n) /\
    findResources array_sort st query (mkOptions sort (Some k) (Some n))
    ++ findResources array_sort st query (mkOptions sort (Some (k + n)) (Some n))
    = findResources array_sort st query (mkOptions sort (Some k) (Some (2 * n))).
Proof.
  intros Hn. exists (findResources array_sort st query (mkOptions sort None None)).
  rewrite (findResources_paged _ _ _ _ k n Hn), (findResources_paged _ _ _ _ (k + n) n Hn),
    (findResources_paged _ _ _ _ k (2 * n)) by lia.
  split; [done|]. split; [done|].
  unfold slice. replace (k + n - k) with n by lia. replace (k + n + n - (k + n)) with n by lia.
  replace (k + 2 * n - k) with (n + n) by lia.
  replace (k + n) with (n + k) by lia. rewrite <- skipn_skipn. apply firstn_app_skipn.
Qed.

Lemma findResources_consecutive_pages_witness :
  1 <= 1 /\
  exists L,
    findResources v8_sort_short demo_store emptyQuery (mkOptions (Some ("createdAt", (-1)%Z)) (Some 0) (Some 1))
      = slice L 0 (0 + 1) /\
    findResources v8_sort_short demo_store emptyQuery (mkOptions (Some ("createdAt", (-1)%Z)) (Some (0 + 1)) (Some 1))
      = slice L (0 + 1) (0 + 1 + 1) /\
    findResources v8_sort_short demo_store emptyQuery (mkOptions (Some ("createdAt", (-1)%Z)) (Some 0) (Some 1))
    ++ findResources v8_sort_short demo_store emptyQuery (mkOptions (Some ("createdAt", (-1)%Z)) (Some (0 + 1)) (Some 1))
    = findResources v8_sort_short demo_store emptyQuery (mkOptions (Some ("createdAt", (-1)%Z)) (Some 0) (Some (2 * 1))).
Proof.
  split; [lia|]. apply findResources_consecutive_pages. lia.
Defined.

(** C7 fails at [limit = 0]: a zero limit is falsy and means no limit,
    so with one stored record both "pages" are the whole list and their
    concatenation repeats it. *)
Lemma findResources_limit_zero_counterexample :
  let st := mkStore ∅ 1 2 [demo_resource "resource_1" "user_1" true 5] in
  findResources v8_sort_short st emptyQuery (mkOptions None (Some 0) (Some 0))
  ++ findResources v8_sort_short st emptyQuery (mkOptions None (Some (0 + 0)) (Some 0))
  <> findResources v8_sort_short st emptyQuery (mkOptions None (Some 0) (Some (2 * 0))).
Proof. vm_compute. discriminate. Qed.

(** The comparator never answers 0: on equal keys it answers -1 both
    ways round, which breaks the consistency that [Array.prototype.sort]
    requires of a comparator. *)
Lemma string_lt_irrefl (s : string) : string_lt s s = false.
Proof.
  induction s as [|c s IH]; [done|]. simpl.
  rewrite Nat.ltb_irrefl, Nat.eqb_refl, IH. done.
Qed.

Lemma js_lt_irrefl (v : jsval) : js_lt v v = false.
Proof.
  destruct v; simpl; try done; [apply Z.ltb_irrefl|apply string_lt_irrefl|].
  destruct b; apply Z.ltb_irrefl.
Qed.

Lemma sort_compare_ties (sortKey : string) (sortOrder : Z) (a b : Resource.t) :
  field_of a sortKey = field_of b sortKey ->
  sort_compare sortKey sortOrder a b = (-1)%Z /\ sort_compare sortKey sortOrder b a = (-1)%Z.
Proof.
  intros Heq. unfold sort_compare. rewrite Heq, js_lt_irrefl.
  destruct (Z.eqb sortOrder 1); done.
Qed.

(** C6 (failing input).  Two stored resources with the same [createdAt],
    inserted [resource_1] then [resource_2]: sorting on [createdAt] in
    either order, and the default listing of [getResources], return
    [resource_2] before [resource_1]. *)
Theorem findResources_sort_reverses_ties :
  field_of (demo_resource "resource_1" "user_1" false 5) "createdAt"
    = field_of (demo_resource "resource_2" "user_2" true 5) "createdAt" /\
  resources demo_store = [demo_resource "resource_1" "user_1" false 5;
                          demo_resource "resource_2" "user_2" true 5] /\
  findResources v8_sort_short demo_store emptyQuery (mkOptions (Some ("createdAt", 1%Z)) None None)
    = [demo_resource "resource_2" "user_2" true 5; demo_resource "resource_1" "user_1" false 5] /\
  findResources v8_sort_short demo_store emptyQuery (mkOptions (Some ("createdAt", (-1)%Z)) None None)
    = [demo_resource "resource_2" "user_2" true 5; demo_resource "resource_1" "user_1" false 5] /\
  fst (getResources_memory v8_sort_short demo_store "user_1" "student" noParams)
    = [demo_resource "resource_2" "user_2" true 5; demo_resource "resource_1" "user_1" false 5].
Proof. vm_compute. repeat split. Qed.

(* ----------------------------------------------------------------- *)
(** ** Reading a resource: the view counter *)

Lemma find_replace_by_id (id : string) (f : Resource.t -> Resource.t) (l : list Resource.t) :
  (forall r, Resource._id r = id -> Resource._id (f r) = id) ->
  find_by_id id (replace_by_id id f l) = f <$> find_by_id id l.
Proof.
  intros Hf. induction l as [|r l IH]; [done|]. unfold find_by_id in *; simpl.
  destruct (String.eqb (Resource._id r) id) eqn:Hr; simpl.
  - apply String.eqb_eq in Hr. by rewrite Hf, String.eqb_refl.
  - by rewrite Hr, IH.
Qed.

Lemma records_of_update b db f :
  records_of b (update_collection b db f) = f (records_of b db).
Proof. by destruct b. Qed.

Lemma find_by_id_id id l r : find_by_id id l = Some r -> Resource._id r = id.
Proof. unfold find_by_id. intros H. apply find_some in H as [_ H]. by apply String.eqb_eq. Qed.

(** C4 (as the code has it).  A read by the creator and a read refused
    by the permission check (a private resource, a reader who is neither
    its creator nor an admin) leave [views] as it was, on both backends;
    on the persistent backend a permitted read by anyone else than the
    creator increments [views] by exactly 1, and the saved document that
    the reply carries has [updatedAt] stamped with the time of [save()]. *)
Theorem getResourceById_views (now : Z) (b : Backend) (db : Backends) (id userId userRole : string)
    (r : Resource.t) :
  find_by_id id (records_of b db) = Some r ->
  (Resource.creator r = userId ->
     fst (getResourceById now b db id userId userRole) = db /\
     snd (getResourceById now b db id userId userRole) = ResourceReply r) /\
  (Resource.creator r <> userId -> Resource.isPublic r = false -> userRole <> "admin" ->
     fst (getResourceById now b db id userId userRole) = db /\
     snd (getResourceById now b db id userId userRole) = StatusReply 403) /\
  (b = Persistent -> Resource.creator r <> userId ->
   (Resource.isPublic r = true \/ userRole = "admin") ->
   forall v, Resource.views r = JNum v ->
     views_of b (fst (getResourceById now b db id userId userRole)) id = Some (JNum (v + 1)) /\
     snd (getResourceById now b db id userId userRole)
       = ResourceReply (set_updatedAt now (set_views (JNum (v + 1)) r))).
Proof.
  intros Hfind. unfold getResourceById. rewrite Hfind.
  split; [|split].
  - intros <-. by rewrite String.eqb_refl.
  - intros Hown Hpriv Hrole.
    apply String.eqb_neq in Hown, Hrole. by rewrite Hown, Hpriv, Hrole.
  - intros -> Hown Hperm v Hv. apply String.eqb_neq in Hown. rewrite Hown. simpl.
    assert (Hgate : negb (Resource.isPublic r) && negb (String.eqb userRole "admin") = false).
    { destruct Hperm as [->| ->]; [done|by rewrite String.eqb_refl, andb_false_r]. }
    rewrite Hgate, Hv. simpl. split; [|done].
    unfold views_of; simpl. simpl in Hfind.
    rewrite find_replace_by_id, Hfind; [done|].
    intros r' _. simpl. by apply find_by_id_id in Hfind.
Qed.

Lemma getResourceById_views_witness :
  find_by_id "resource_2" (records_of Persistent (mkBackends (resources demo_store) initialStore))
    = Some (demo_resource "resource_2" "user_2" true 5) /\
  views_of Persistent
    (fst (getResourceById 7 Persistent (mkBackends (resources demo_store) initialStore)
            "resource_2" "user_1" "student")) "resource_2" = Some (JNum (0 + 1)) /\
  snd (getResourceById 7 Persistent (mkBackends (resources demo_store) initialStore)
         "resource_2" "user_1" "student")
    = ResourceReply (set_updatedAt 7 (set_views (JNum (0 + 1)) (demo_resource "resource_2" "user_2" true 5))).
Proof.
  assert (Hf : find_by_id "resource_2" (records_of Persistent (mkBackends (resources demo_store) initialStore))
               = Some (demo_resource "resource_2" "user_2" true 5)) by reflexivity.
  split; [exact Hf|].
  apply (proj2 (proj2 (getResourceById_views 7 Persistent _ "resource_2" "user_1" "student" _ Hf)));
    [reflexivity|discriminate|left; reflexivity|reflexivity].
Defined.

(** C4 fails as stated: a student who did not create a private resource
    reads it, the read is refused with 403 and [views] stays at 0. *)
Lemma getResourceById_private_counterexample :
  Resource.creator (demo_resource "resource_1" "user_1" false 5) <> "user_2" /\
  views_of Persistent (mkBackends (resources demo_store) initialStore) "resource_1" = Some (JNum 0) /\
  getResourceById 7 Persistent (mkBackends (resources demo_store) initialStore)
     "resource_1" "user_2" "student"
  = (mkBackends (resources demo_store) initialStore, StatusReply 403) /\
  views_of Persistent
    (fst (getResourceById 7 Persistent (mkBackends (resources demo_store) initialStore)
            "resource_1" "user_2" "student")) "resource_1" = Some (JNum 0).
Proof. vm_compute. repeat split. discriminate. Qed.

(* ----------------------------------------------------------------- *)
(** ** Liking a resource *)

Lemma existsb_eqb_count (u : string) (l : list string) :
  existsb (String.eqb u) l = true <-> 0 < count_occ String.string_dec l u.
Proof.
  rewrite existsb_exists. pose proof (count_occ_In String.string_dec l u) as Hc. split.
  - intros [x [Hin Hx]]. apply String.eqb_eq in Hx. subst. apply Hc in Hin. lia.
  - intros Hlt. exists u. rewrite String.eqb_refl. split; [apply Hc; lia|done].
Qed.

Lemma count_filter_removed (u : string) (l : list string) :
  count_occ String.string_dec (List.filter (fun like => negb (String.eqb like u)) l) u = 0.
Proof.
  induction l as [|x l IH]; [done|]. simpl.
  destruct (String.eqb x u) eqn:Hx; simpl; [done|].
  apply String.eqb_neq in Hx. destruct (String.string_dec x u); [done|]. exact IH.
Qed.

Lemma count_app_self (u : string) (l : list string) :
  count_occ String.string_dec (l ++ [u]) u = count_occ String.string_dec l u + 1.
Proof.
  rewrite count_occ_app. simpl. destruct (String.string_dec u u); [lia|done].
Qed.

(** One call toggles the membership of the account. *)
Lemma toggle_like_member (u : string) (l : list string) :
  existsb (String.eqb u) (toggle_like u l) = negb (existsb (String.eqb u) l).
Proof.
  unfold toggle_like. destruct (existsb (String.eqb u) l) eqn:Hl; simpl.
  - destruct (existsb _ (List.filter _ _)) eqn:Hf; [|done].
    apply existsb_eqb_count in Hf. rewrite count_filter_removed in Hf. lia.
  - apply existsb_eqb_count. rewrite count_app_self. lia.
Qed.

Lemma likes_of_like (now : Z) (db : Backends) (id userId : string) (r : Resource.t) :
  find_by_id id (collection db) = Some r ->
  find_by_id id (collection (fst (likeResource now db id userId)))
  = Some (set_updatedAt now (set_likes (toggle_like userId (Resource.likes r)) r)).
Proof.
  intros Hf. unfold likeResource. rewrite Hf. simpl.
  rewrite find_replace_by_id, Hf; [done|].
  intros r' _. simpl. by apply find_by_id_id in Hf.
Qed.

Lemma likes_of_like_fold (nows : list Z) (db : Backends) (id userId : string) (r : Resource.t) :
  find_by_id id (collection db) = Some r ->
  exists r', find_by_id id (collection (fold_left (fun d now => fst (likeResource now d id userId)) nows db))
             = Some r' /\ Resource.likes r' = Nat.iter (length nows) (toggle_like userId) (Resource.likes r).
Proof.
  revert db r. induction nows as [|t nows IH]; intros db r Hf; simpl; [by eauto|].
  destruct (IH _ _ (likes_of_like t db id userId r Hf)) as [r' [Hr' Hl]].
  exists r'. split; [exact Hr'|]. rewrite Hl. simpl. by rewrite <- Nat.iter_succ_r.
Qed.

(** C8.  [likeResource] toggles: after [N] calls by one account, at any
    clock readings, the account is among the likers exactly when it was at
    the start XOR [N] is odd; from the unliked state its entries number
    [N mod 2]. *)
Theorem likeResource_toggle (db : Backends) (id userId : string) (r : Resource.t) (nows : list Z) :
  find_by_id id (collection db) = Some r ->
  exists likes,
    likes_of (fold_left (fun d now => fst (likeResource now d id userId)) nows db) id = Some likes /\
    existsb (String.eqb userId) likes
      = xorb (existsb (String.eqb userId) (Resource.likes r)) (Nat.odd (length nows)) /\
    (existsb (String.eqb userId) (Resource.likes r) = false ->
     count_occ String.string_dec likes userId = length nows mod 2).
Proof.
  intros Hf. destruct (likes_of_like_fold nows db id userId r Hf) as [r' [Hr' Hl]].
  exists (Resource.likes r'). unfold likes_of. rewrite Hr'. split; [done|]. rewrite Hl.
  clear Hr' Hl Hf. generalize (length nows) as N. intros N. split.
  - induction N as [|N IH]; simpl; [by rewrite xorb_false_r|].
    rewrite toggle_like_member, IH, Nat.odd_succ, <- Nat.negb_odd.
    by destruct (existsb (String.eqb userId) (Resource.likes r)), (Nat.odd N).
  - intros H0. induction N as [|N IH].
    + simpl. destruct (count_occ String.string_dec (Resource.likes r) userId) eqn:Hc; [reflexivity|].
      assert (Hp : 0 < count_occ String.string_dec (Resource.likes r) userId) by lia.
      apply existsb_eqb_count in Hp. congruence.
    + rewrite Nat.iter_succ. replace (S N) with (N + 1) by lia. rewrite Nat.Div0.add_mod.
      pose proof (Nat.mod_upper_bound N 2) as Hb.
      unfold toggle_like at 1.
      destruct (existsb (String.eqb userId) (Nat.iter N (toggle_like userId) (Resource.likes r))) eqn:He.
      * rewrite count_filter_removed. apply existsb_eqb_count in He.
        rewrite IH in He. assert (N mod 2 = 1) as -> by lia. reflexivity.
      * rewrite count_app_self, IH.
        assert (HN : N mod 2 = 0).
        { destruct (N mod 2) eqn:Hm; [done|]. exfalso.
          assert (Hp : 0 < count_occ String.string_dec (Nat.iter N (toggle_like userId) (Resource.likes r)) userId)
            by (rewrite IH; lia).
          apply existsb_eqb_count in Hp. congruence. }
        rewrite HN. reflexivity.
Qed.

Lemma likeResource_toggle_witness :
  find_by_id "resource_2" (collection (mkBackends (resources demo_store) initialStore))
    = Some (demo_resource "resource_2" "user_2" true 5) /\
  exists likes,
    likes_of (fold_left (fun d now => fst (likeResource now d "resource_2" "user_1")) [1%Z; 2%Z; 3%Z]
                (mkBackends (resources demo_store) initialStore)) "resource_2" = Some likes /\
    existsb (String.eqb "user_1") likes
      = xorb (existsb (String.eqb "user_1") (Resource.likes (demo_resource "resource_2" "user_2" true 5)))
             (Nat.odd (length [1%Z; 2%Z; 3%Z])) /\
    (existsb (String.eqb "user_1") (Resource.likes (demo_resource "resource_2" "user_2" true 5)) = false ->
     count_occ String.string_dec likes "user_1" = length [1%Z; 2%Z; 3%Z] mod 2).
Proof.
  assert (Hf : find_by_id "resource_2" (collection (mkBackends (resources demo_store) initialStore))
               = Some (demo_resource "resource_2" "user_2" true 5)) by reflexivity.
  split; [exact Hf|]. exact (likeResource_toggle _ "resource_2" "user_1" _ [1%Z; 2%Z; 3%Z] Hf).
Defined.

(* ----------------------------------------------------------------- *)
(** ** Generation dispatcher *)

Lemma providers_mock (env : Env) : providers env !! "mock" = Some MockProvider.
Proof. unfold providers. apply lookup_insert_eq. Qed.

Lemma str_or_named (p d : string) : p <> "" -> str_or (Some p) d = p.
Proof. intros Hp. unfold str_or, str_truthy. apply String.eqb_neq in Hp. by rewrite Hp. Qed.

(** C2.  When the request names (with a non-empty string, which is what
    naming takes: [""] is falsy and selects the default provider) a
    provider without a registered adapter, [generateContent] does not
    throw: it answers with the mock adapter, whose result has provider
    "mock" and [metadata.isMock] true. *)
Theorem generateContent_unknown_provider_uses_mock now openai_generateText
    openai_generateImage claude_generateText (env : Env) (request : GenerationRequest)
    (p : string) :
  g_provider request = Some p -> p <> "" -> providers env !! p = None ->
  exists result,
    generateContent now openai_generateText openai_generateImage claude_generateText env request
      = Resolve result /\
    res_provider result = "mock" /\
    metadata_get "isMock" (metadata result) = Some (JBool true).
Proof.
  intros Hreq Hne Hnone. unfold generateContent.
  rewrite Hreq, str_or_named, Hnone, providers_mock by done.
  destruct (g_type request); simpl; eexists; (split; [reflexivity|]); split; reflexivity.
Qed.

Lemma generateContent_unknown_provider_uses_mock_witness :
  let request := mkRequest TText "photosynthesis" None (Some "nonexistent") None None None None None in
  (g_provider request = Some "nonexistent" /\ "nonexistent" <> "" /\
   providers (mkEnv (Some "sk-1") None) !! "nonexistent" = None) /\
  exists result,
    generateContent 0 (fun _ => Throw "OpenAI内容生成失败") (fun _ => Throw "OpenAI图像生成失败")
      (fun _ => Throw "Claude内容生成失败") (mkEnv (Some "sk-1") None) request = Resolve result /\
    res_provider result = "mock" /\
    metadata_get "isMock" (metadata result) = Some (JBool true).
Proof.
  intros request.
  assert (H1 : g_provider request = Some "nonexistent") by reflexivity.
  assert (H2 : "nonexistent" <> "") by discriminate.
  assert (H3 : providers (mkEnv (Some "sk-1") None) !! "nonexistent" = None) by (vm_compute; reflexivity).
  split; [split; [exact H1|split; [exact H2|exact H3]]|].
  exact (generateContent_unknown_provider_uses_mock 0 _ _ _ _ request "nonexistent" H1 H2 H3).
Defined.

(** C5 (as the code has it).  An image request that reaches a registered
    adapter without [generateImage] is answered by that adapter's
    [generateText] on the same request: the dispatcher raises no
    capability error of its own. *)
Theorem generateContent_image_without_capability now openai_generateText
    openai_generateImage claude_generateText (env : Env) (request : GenerationRequest)
    (provider : AIProvider) :
  g_type request = TImage ->
  providers env !! str_or (g_provider request) "openai" = Some provider ->
  generateImage_of now openai_generateImage provider = None ->
  generateContent now openai_generateText openai_generateImage claude_generateText env request
  = generateText_of now openai_generateText claude_generateText provider request.
Proof.
  intros Htype Hprov Hcap. unfold generateContent.
  rewrite Hprov, Hprov, Htype, Hcap. done.
Qed.

Lemma generateContent_image_without_capability_witness :
  (g_type image_request_for_claude = TImage /\
   providers (mkEnv None (Some "ck-1")) !! str_or (g_provider image_request_for_claude) "openai"
     = Some ClaudeProvider /\
   generateImage_of 0 (fun _ => Throw "OpenAI图像生成失败") ClaudeProvider = None) /\
  generateContent 0 (fun _ => Throw "OpenAI内容生成失败") (fun _ => Throw "OpenAI图像生成失败")
    (fun _ => Resolve claude_text_answer) (mkEnv None (Some "ck-1")) image_request_for_claude
  = generateText_of 0 (fun _ => Throw "OpenAI内容生成失败") (fun _ => Resolve claude_text_answer)
      ClaudeProvider image_request_for_claude.
Proof.
  assert (H1 : g_type image_request_for_claude = TImage) by reflexivity.
  assert (H2 : providers (mkEnv None (Some "ck-1")) !! str_or (g_provider image_request_for_claude) "openai"
               = Some ClaudeProvider) by (vm_compute; reflexivity).
  assert (H3 : generateImage_of 0 (fun _ => Throw "OpenAI图像生成失败") ClaudeProvider = None)
    by reflexivity.
  split; [split; [exact H1|split; [exact H2|exact H3]]|].
  exact (generateContent_image_without_capability 0 _ _ _ _ _ _ H1 H2 H3).
Defined.

(** C5 fails as stated: with the Claude adapter registered, an image
    request for "claude" comes back resolved with Claude's text answer. *)
Lemma generateContent_image_claude_counterexample :
  generateImage_of 0 (fun _ => Throw "OpenAI图像生成失败") ClaudeProvider = None /\
  generateContent 0 (fun _ => Throw "OpenAI内容生成失败") (fun _ => Throw "OpenAI图像生成失败")
    (fun _ => Resolve claude_text_answer) (mkEnv None (Some "ck-1")) image_request_for_claude
  = Resolve claude_text_answer.
Proof. split; vm_compute; reflexivity. Qed.

(* ----------------------------------------------------------------- *)
(** ** Accounts: the other store methods and the authentication handlers *)

Lemma find_values_some_inv {V} (p : V -> bool) (m : gmap string V) v :
  List.find p (map snd (map_to_list m)) = Some v -> p v = true /\ exists k, m !! k = Some v.
Proof. intros Hf. apply find_some in Hf as [Hin Hp]. split; [done|]. by apply in_map_values. Qed.

Lemma find_values_none_inv {V} (p : V -> bool) (m : gmap string V) :
  List.find p (map snd (map_to_list m)) = None -> forall k v, m !! k = Some v -> p v = false.
Proof. intros Hf k v Hk. apply (find_none _ _ Hf). apply in_map_values. eauto. Qed.

Lemma find_values_unique {V} (p : V -> bool) (m : gmap string V) k w :
  m !! k = Some w -> p w = true -> (forall k' v, m !! k' = Some v -> p v = true -> v = w) ->
  List.find p (map snd (map_to_list m)) = Some w.
Proof.
  intros Hk Hp Hu. destruct (find_values_some p m k w Hk Hp) as [v Hv]. rewrite Hv.
  apply find_values_some_inv in Hv as [Hpv [k' Hk']]. f_equal. eauto.
Qed.






Lemma updateUserPassword_as_update bcrypt_hash now st id pw :
  fst (updateUserPassword bcrypt_hash now st id pw)
  = fst (updateUser now st id (mkUserUpdate None None None (Some (bcrypt_hash pw)) None None None None)).
Proof. unfold updateUserPassword, updateUser. by destruct (users st !! id). Qed.


(** X1.  Two [createUser] calls that overlap at [await bcrypt.hash], as
    two [register] requests with one e-mail can, both pass the clash check
    and both insert: the store ends with two users under distinct ids that
    share the e-mail, so the uniqueness the check is meant to keep is lost.
    Run one after the other, the second call throws instead. *)
Theorem createUser_overlapping_duplicates_email (bcrypt_hash : string -> string) (now1 now2 : Z)
    (st : MemoryStore) (d1 d2 : UserData) :
  createUser_check st d1 = None -> createUser_check st d2 = None -> ud_email d1 = ud_email d2 ->
  (exists u1 u2,
     snd (createUser_overlapping bcrypt_hash now1 now2 st d1 d2) = (Resolve u1, Resolve u2) /\
     MemoryUser._id u1 <> MemoryUser._id u2 /\ MemoryUser.email u1 = MemoryUser.email u2 /\
     users (fst (createUser_overlapping bcrypt_hash now1 now2 st d1 d2)) !! MemoryUser._id u1 = Some u1 /\
     users (fst (createUser_overlapping bcrypt_hash now1 now2 st d1 d2)) !! MemoryUser._id u2 = Some u2 /\
     ~ users_unique (fst (createUser_overlapping bcrypt_hash now1 now2 st d1 d2))) /\
  snd (createUser bcrypt_hash now2 (fst (createUser bcrypt_hash now1 st d1)) d2) = Throw createUser_error.
Proof.
  intros H1 H2 He.
  assert (Hne : userIdOf (userIdCounter st) <> userIdOf (userIdCounter st + 1)).
  { intros E. apply userIdOf_inj in E. lia. }
  split.
  - unfold createUser_overlapping. rewrite H1, H2. unfold createUser_commit, generateUserId. simpl.
    eexists _, _. split; [reflexivity|]. simpl.
    assert (Hl1 : forall u1 u2,
      <[userIdOf (userIdCounter st + 1) := u2]> (<[userIdOf (userIdCounter st) := u1]> (users st))
        !! userIdOf (userIdCounter st) = Some u1).
    { intros u1 u2. rewrite lookup_insert_ne by (intros E; apply Hne; symmetry; exact E).
      apply lookup_insert_eq. }
    split_and!; [exact Hne|exact He|apply Hl1|apply lookup_insert_eq|].
    intros Hu. apply Hne. eapply Hu; [apply Hl1|apply lookup_insert_eq|]. right. exact He.
  - unfold createUser at 2. rewrite H1. unfold createUser_commit, generateUserId. simpl.
    unfold createUser, createUser_check. simpl.
    destruct (List.find _ _) eqn:Hf; [reflexivity|]. exfalso.
    pose proof (find_values_none_inv _ _ Hf _ _ (lookup_insert_eq _ _ _)) as Hc.
    unfold user_clash in Hc. simpl in Hc. rewrite He, String.eqb_refl in Hc. discriminate Hc.
Qed.



(** X4.  A successful [login] replies with the user as stored before the call,
    so with the previous [lastLoginAt]; the store now holds that user with
    [lastLoginAt] and [updatedAt] set to the current time and its
    credentials unchanged. *)
Theorem login_replies_previous_lastLoginAt bcrypt_compare generateToken now
    (st st' : MemoryStore) (email password : string) (u : MemoryUser.t) (token : string) :
  ids_match st ->
  AuthController.login bcrypt_compare generateToken now st email password
    = (st', ok 200 "登录成功" (u, token)) ->
  users st !! MemoryUser._id u = Some u /\ MemoryUser.email u = email /\
  exists u', users st' !! MemoryUser._id u = Some u' /\
    MemoryUser.lastLoginAt u' = Some now /\ MemoryUser.updatedAt u' = now /\
    MemoryUser.username u' = MemoryUser.username u /\ MemoryUser.email u' = MemoryUser.email u /\
    MemoryUser.password u' = MemoryUser.password u /\ MemoryUser.role u' = MemoryUser.role u.
Proof.
  intros Hm. unfold AuthController.login.
  destruct (findUserByEmail st email) as [u0|] eqn:Hf; [|discriminate].
  destruct (negb _); [discriminate|].
  unfold findUserByEmail in Hf. apply find_values_some_inv in Hf as [He [k Hk]].
  pose proof (Hm k u0 Hk) as Hid. simpl in Hid. subst k.
  unfold updateUser. rewrite Hk. intros H. injection H as <- <- <-.
  apply String.eqb_eq in He.
  split; [done|split; [done|]]. simpl. rewrite lookup_insert_eq. eexists. done.
Qed.


(** X6.  [updateUser] changes at most the entry under the given id: the other
    entries, the set of ids, both counters and the resources stay as they
    were; it returns nothing exactly when the id is absent. *)
Theorem updateUser_changes_only_id now (st : MemoryStore) (id : string) (upd : UserUpdate) :
  let st' := fst (updateUser now st id upd) in
  delete id (users st') = delete id (users st) /\ dom (users st') = dom (users st) /\
  userIdCounter st' = userIdCounter st /\ resourceIdCounter st' = resourceIdCounter st /\
  resources st' = resources st /\
  (snd (updateUser now st id upd) = None <-> users st !! id = None).
Proof.
  unfold updateUser. destruct (users st !! id) as [u|] eqn:Hk; simpl; [|done].
  split; [apply delete_insert_eq|]. split; [by apply dom_insert_lookup_L|].
  split_and!; done.
Qed.

(** X7.  [updateProfile] never changes an account's id, user name, e-mail,
    password hash, role, creation time or last login time, and answers 404
    exactly when the authenticated user's id is not in the store. *)
Theorem updateProfile_keeps_credentials now (st : MemoryStore) (reqUser : MemoryUser.t)
    (reqBody : AuthController.ProfileBody) (k : string) (u : MemoryUser.t) :
  users st !! k = Some u ->
  (exists u', users (fst (AuthController.updateProfile now st reqUser reqBody)) !! k = Some u' /\
     MemoryUser._id u' = MemoryUser._id u /\ MemoryUser.username u' = MemoryUser.username u /\
     MemoryUser.email u' = MemoryUser.email u /\ MemoryUser.password u' = MemoryUser.password u /\
     MemoryUser.role u' = MemoryUser.role u /\ MemoryUser.createdAt u' = MemoryUser.createdAt u /\
     MemoryUser.lastLoginAt u' = MemoryUser.lastLoginAt u) /\
  (code (snd (AuthController.updateProfile now st reqUser reqBody)) = 404%Z <->
   users st !! MemoryUser._id reqUser = None).
Proof.
  intros Hk. unfold AuthController.updateProfile, updateUser.
  destruct (users st !! MemoryUser._id reqUser) as [v|] eqn:Hr; simpl.
  - split; [|split; [discriminate|done]].
    destruct (String.eqb_spec k (MemoryUser._id reqUser)) as [->|Hne].
    + rewrite lookup_insert_eq. rewrite Hr in Hk. injection Hk as <-. eexists. split; [done|]. done.
    + rewrite lookup_insert_ne by congruence. eexists. done.
  - split; [eexists; done|done].
Qed.

(** X8.  [clear] empties the user map and resets the user counter but keeps the
    resources and the resource counter, so the next [createUser] hands out
    [user_1] again. *)
Theorem clear_restarts_user_ids bcrypt_hash now (st : MemoryStore) (d : UserData) :
  users (clear st) = ∅ /\ resources (clear st) = resources st /\
  resourceIdCounter (clear st) = resourceIdCounter st /\
  exists st' u, createUser bcrypt_hash now (clear st) d = (st', Resolve u) /\
    MemoryUser._id u = "user_1" /\ users st' = {[ "user_1" := u ]}.
Proof.
  split_and!; [done..|]. unfold createUser, createUser_check, createUser_commit. simpl.
  eexists _, _. split; [reflexivity|]. split; [reflexivity|]. simpl.
  apply insert_empty.
Qed.

(** X28.  After a successful [createUser], [findUserById] with the new id and
    [findUserByEmail] with the given e-mail both return the new user, whose
    password field is the hash of the given password. *)
Theorem createUser_then_find bcrypt_hash now (st st' : MemoryStore) (d : UserData) (u : MemoryUser.t) :
  createUser bcrypt_hash now st d = (st', Resolve u) ->
  findUserById st' (MemoryUser._id u) = Some u /\ findUserByEmail st' (ud_email d) = Some u /\
  MemoryUser.email u = ud_email d /\ MemoryUser.password u = bcrypt_hash (ud_password d).
Proof.
  intros Hc. unfold createUser, createUser_check, createUser_commit in Hc. destruct (List.find _ _) eqn:Hf; [discriminate Hc|].
  pose proof (find_values_none_inv _ _ Hf) as Hn. simpl in Hc. injection Hc as <- <-.
  unfold findUserById, findUserByEmail. simpl. rewrite lookup_insert_eq.
  split_and!; [done| |done|done].
  erewrite find_values_unique; [done | apply lookup_insert_eq | apply String.eqb_refl |].
  intros k v Hk Hp. apply lookup_insert_Some in Hk as [[_ <-]|[_ Hk]]; [done|].
  specialize (Hn k v Hk). unfold user_clash in Hn. simpl in Hn, Hp.
  rewrite Hp in Hn. discriminate Hn.
Qed.

(* ----------------------------------------------------------------- *)
(** ** Resources: the other store methods and the handlers *)

Lemma resourceIdOf_inj (n1 n2 : N) : resourceIdOf n1 = resourceIdOf n2 -> n1 = n2.
Proof. unfold resourceIdOf. intros H. apply (inj (String.app _)) in H. by apply (inj pretty) in H. Qed.

Lemma find_by_id_app_single id l r :
  find_by_id id (l ++ [r]) =
  match find_by_id id l with
  | Some x => Some x
  | None => if String.eqb (Resource._id r) id then Some r else None
  end.
Proof.
  unfold find_by_id. induction l as [|x l IH]; simpl; [by destruct (String.eqb _ _)|].
  destruct (String.eqb (Resource._id x) id); [done|exact IH].
Qed.

Lemma find_by_id_None id l : find_by_id id l = None <-> id ∉ map Resource._id l.
Proof.
  unfold find_by_id. induction l as [|x l IH]; simpl.
  - split; [intros _; apply not_elem_of_nil|done].
  - rewrite not_elem_of_cons, <- IH.
    destruct (String.eqb_spec (Resource._id x) id) as [E|E]; split; intros H.
    + discriminate H.
    + destruct H as [H _]. congruence.
    + split; [congruence|exact H].
    + exact (proj2 H).
Qed.

Lemma remove_by_id_app_fresh id l r :
  id ∉ map Resource._id l -> Resource._id r = id -> remove_by_id id (l ++ [r]) = l.
Proof.
  intros Hn Hr. induction l as [|x l IH]; simpl.
  - by rewrite Hr, String.eqb_refl.
  - simpl in Hn. apply not_elem_of_cons in Hn as [Hx Hn].
    destruct (String.eqb_spec (Resource._id x) id); [congruence|]. by rewrite IH.
Qed.

Lemma fresh_resource_id st :
  resources_wf st -> resourceIdOf (resourceIdCounter st) ∉ map Resource._id (resources st).
Proof.
  intros [_ Hall] Hin. apply list_elem_of_In, in_map_iff in Hin as [r [Hr Hin]].
  eapply List.Forall_forall in Hall; [|exact Hin].
  destruct Hall as [n [Hn Heq]]. rewrite Heq in Hr. apply resourceIdOf_inj in Hr. lia.
Qed.

Lemma createResource_fresh_spec now (st st' : MemoryStore) (data : ResourceData) (r : Resource.t) :
  resources_wf st -> rd_id data = None ->
  createResource now st data = (st', r) ->
  Resource._id r = resourceIdOf (resourceIdCounter st) /\
  resources st' = resources st ++ [r] /\
  resourceIdCounter st' = (resourceIdCounter st + 1)%N /\
  resources_wf st' /\ findResourceById st' (Resource._id r) = Some r.
Proof.
  intros Hwf Hid. unfold createResource. rewrite Hid. simpl. intros H. injection H as <- <-. simpl.
  pose proof (fresh_resource_id st Hwf) as Hfresh.
  split_and!; try done.
  - destruct Hwf as [Hnd Hall]. split; simpl.
    + rewrite map_app. apply NoDup_app. split_and!; [done| |by apply NoDup_singleton].
      intros x Hx Hx'. apply list_elem_of_singleton in Hx'. subst x. exact (Hfresh Hx).
    + apply Forall_app. split.
      * eapply Forall_impl; [exact Hall|]. intros x [n [Hn Hx]]. exists n. split; [lia|done].
      * constructor; [|constructor]. exists (resourceIdCounter st). split; [lia|done].
  - unfold findResourceById. simpl. rewrite find_by_id_app_single.
    apply find_by_id_None in Hfresh. rewrite Hfresh. by rewrite String.eqb_refl.
Qed.

(** X9.  On a well-formed resource list (distinct ids, each made by
    [generateResourceId] below the counter), [createResource] without an id
    in its data appends one record under [resource_<counter>], increments the
    counter, keeps the list well formed, and the new record is found by its
    id. *)
Theorem createResource_fresh now (st st' : MemoryStore) (data : ResourceData) (r : Resource.t) :
  resources_wf st -> rd_id data = None ->
  createResource now st data = (st', r) ->
  Resource._id r = resourceIdOf (resourceIdCounter st) /\
  resources st' = resources st ++ [r] /\
  resourceIdCounter st' = (resourceIdCounter st + 1)%N /\
  resources_wf st' /\ findResourceById st' (Resource._id r) = Some r.
Proof. apply createResource_fresh_spec. Qed.

(** X10.  An [id] field in the creation data overrides the generated one: when it
    names an existing resource, the new record is appended under a duplicate
    id and [findResourceById] keeps returning the older record. *)
Theorem createResource_body_id_shadowed now (st : MemoryStore) (data : ResourceData)
    (x : string) (old : Resource.t) :
  findResourceById st x = Some old -> rd_id data = Some x ->
  findResourceById (fst (createResource now st data)) x = Some old /\
  ~ NoDup (map Resource._id (resources (fst (createResource now st data)))).
Proof.
  intros Hold Hid. unfold createResource, findResourceById in *. rewrite Hid. simpl. split.
  - by rewrite find_by_id_app_single, Hold.
  - rewrite map_app. simpl. intros Hnd. apply NoDup_app in Hnd as (_ & Hd & _).
    apply (Hd x); [|by apply list_elem_of_singleton].
    apply find_by_id_id in Hold as Hx. apply list_elem_of_In, in_map_iff. exists old.
    split; [done|]. unfold find_by_id in Hold. by apply find_some in Hold as [Hin _].
Qed.

(** X11.  The volatile path of the create handler answers 201 with a record whose
    creator is the caller, and the caller then reads that record back
    through [getResourceById] without changing the store. *)
Theorem createResource_handler_then_owner_read now now' (st st' : MemoryStore) (userId userRole : string)
    (reqBody : ResourceData) (coll : list Resource.t) (resp : Response Resource.t) :
  resources_wf st -> rd_id reqBody = None ->
  AiController.createResource now st userId reqBody = (st', resp) ->
  code resp = 201%Z /\
  exists r, body resp = Some r /\ Resource.creator r = userId /\
    getResourceById now' Volatile (mkBackends coll st') (Resource._id r) userId userRole
      = (mkBackends coll st', ResourceReply r).
Proof.
  intros Hwf Hid. unfold AiController.createResource.
  destruct (createResource _ _ _) as [st1 r] eqn:Hc. intros H. injection H as <- <-.
  pose proof Hc as Hc0. eapply createResource_fresh_spec in Hc0 as (_ & _ & _ & _ & Hfind); [|exact Hwf|exact Hid].
  split; [done|]. exists r. split; [done|].
  unfold createResource in Hc. injection Hc as _ Hr.
  assert (Hcr : Resource.creator r = userId) by (subst r; reflexivity).
  split; [done|].
  unfold getResourceById. simpl. unfold findResourceById in Hfind. rewrite Hfind.
  rewrite Hcr, String.eqb_refl. reflexivity.
Qed.

Lemma filter_idem {A} (f : A -> bool) (l : list A) : List.filter f (List.filter f l) = List.filter f l.
Proof.
  induction l as [|x l IH]; simpl; [done|].
  destruct (f x) eqn:Hx; simpl; [rewrite Hx, IH|]; done.
Qed.

Lemma filter_sublist {A} (f : A -> bool) (l : list A) : List.filter f l `sublist_of` l.
Proof.
  induction l as [|x l IH]; simpl; [constructor|].
  destruct (f x); [by apply sublist_skip|by apply sublist_cons].
Qed.

(** X12.  [cleanupCorruptedResources] is idempotent, only removes resources
    (keeping the order of the rest), and leaves the users and both counters
    alone. *)
Theorem cleanupCorruptedResources_idempotent (st : MemoryStore) :
  cleanupCorruptedResources (cleanupCorruptedResources st) = cleanupCorruptedResources st /\
  resources (cleanupCorruptedResources st) `sublist_of` resources st /\
  users (cleanupCorruptedResources st) = users st /\
  userIdCounter (cleanupCorruptedResources st) = userIdCounter st /\
  resourceIdCounter (cleanupCorruptedResources st) = resourceIdCounter st.
Proof.
  unfold cleanupCorruptedResources, set_resources. simpl.
  split_and!; [by rewrite filter_idem|apply filter_sublist|done..].
Qed.

Lemma outside_class_byte_spec (c : Ascii.ascii) :
  outside_class_byte c = true ->
  ascii_word_or_space c = false /\
  forallb (fun p => match p with String c0 _ => negb (Ascii.eqb c0 c) | EmptyString => false end)
    unicode_spaces = true.
Proof.
  destruct c as [b0 b1 b2 b3 b4 b5 b6 b7].
  destruct b0, b1, b2, b3, b4, b5, b6, b7; vm_compute; intros H; first [discriminate H | split; reflexivity].
Qed.

Lemma matches_outside_class (s : string) :
  all_chars outside_class_byte s = true -> matches_word_or_space s = false.
Proof.
  induction s as [|c s IH]; [done|].
  intros H. cbn [all_chars] in H. apply andb_true_iff in H as [Hc Hs].
  destruct (outside_class_byte_spec c Hc) as [Ha Hsp]. cbn [matches_word_or_space].
  rewrite Ha, (IH Hs), orb_false_r, orb_false_l.
  destruct (existsb _ _) eqn:Hex; [exfalso|reflexivity].
  apply existsb_exists in Hex as [p [Hin Hp]].
  apply forallb_forall with (x := p) in Hsp; [|exact Hin].
  destruct p as [|c0 p]; [discriminate Hsp|]. cbn [startsWith] in Hp.
  apply andb_true_iff in Hp as [Hp _]. rewrite Hp in Hsp. discriminate Hsp.
Qed.

(** X13.  A resource whose title contains a question mark and consists only of
    bytes outside the character class of the cleanup pattern is removed by
    [cleanupCorruptedResources]. *)
Theorem cleanupCorruptedResources_drops_question_marked_titles (st : MemoryStore) (r : Resource.t) :
  includes (Resource.title r) "?" = true ->
  all_chars outside_class_byte (Resource.title r) = true ->
  ~ In r (resources (cleanupCorruptedResources st)).
Proof.
  intros Hq Hall Hin. unfold cleanupCorruptedResources, set_resources in Hin. simpl in Hin.
  apply filter_In in Hin as [_ Hk]. unfold hasCorruptedTitle in Hk.
  rewrite Hq, (matches_outside_class _ Hall) in Hk. discriminate Hk.
Qed.

Lemma find_by_id_replace_ne id id' f l :
  id' <> id -> (forall r, Resource._id (f r) = Resource._id r) ->
  find_by_id id' (replace_by_id id f l) = find_by_id id' l.
Proof.
  intros Hne Hf. unfold find_by_id. induction l as [|r l IH]; simpl; [done|].
  destruct (String.eqb_spec (Resource._id r) id) as [E|E]; simpl.
  - rewrite Hf. destruct (String.eqb_spec (Resource._id r) id'); [congruence|done].
  - destruct (String.eqb (Resource._id r) id'); [done|exact IH].
Qed.

Lemma length_replace_by_id id f l : length (replace_by_id id f l) = length l.
Proof. induction l as [|r l IH]; simpl; [done|]. destruct (String.eqb _ _); simpl; congruence. Qed.

Lemma find_by_id_remove_ne id id' l :
  id' <> id -> find_by_id id' (remove_by_id id l) = find_by_id id' l.
Proof.
  intros Hne. unfold find_by_id. induction l as [|r l IH]; simpl; [done|].
  destruct (String.eqb_spec (Resource._id r) id) as [E|E]; simpl.
  - destruct (String.eqb_spec (Resource._id r) id'); [congruence|done].
  - destruct (String.eqb (Resource._id r) id'); [done|exact IH].
Qed.

Lemma length_remove_by_id id l r :
  find_by_id id l = Some r -> length (remove_by_id id l) = length l - 1.
Proof.
  unfold find_by_id. induction l as [|x l IH]; simpl; [discriminate|].
  destruct (String.eqb (Resource._id x) id); [intros _; lia|].
  intros H. specialize (IH H). simpl. destruct l; simpl in *; [discriminate|lia].
Qed.

Lemma find_by_id_remove_nodup id l :
  NoDup (map Resource._id l) -> find_by_id id (remove_by_id id l) = None.
Proof.
  intros Hnd. induction l as [|r l IH]; simpl; [done|].
  simpl in Hnd. apply NoDup_cons in Hnd as [Hr Hnd].
  destruct (String.eqb_spec (Resource._id r) id) as [E|E].
  - apply find_by_id_None. by rewrite <- E.
  - unfold find_by_id in *. simpl. destruct (String.eqb_spec (Resource._id r) id); [congruence|].
    exact (IH Hnd).
Qed.

Lemma merge_resource_id now r upd :
  ru_id upd = None -> Resource._id (merge_resource now r upd) = Resource._id r.
Proof. intros H. unfold merge_resource. by rewrite H. Qed.

(** X14.  [updateResource] with no [id] in the update replaces the record in
    place: same length, other ids resolve as before, the returned record is
    what the id now resolves to, it returns nothing exactly when the id is
    absent, and users and counters are unchanged. *)
Theorem updateResource_in_place now (st : MemoryStore) (id : string) (upd : ResourceUpdate) :
  ru_id upd = None ->
  length (resources (fst (updateResource now st id upd))) = length (resources st) /\
  (forall id', id' <> id ->
     findResourceById (fst (updateResource now st id upd)) id' = findResourceById st id') /\
  findResourceById (fst (updateResource now st id upd)) id = snd (updateResource now st id upd) /\
  (snd (updateResource now st id upd) = None <-> findResourceById st id = None) /\
  users (fst (updateResource now st id upd)) = users st /\
  resourceIdCounter (fst (updateResource now st id upd)) = resourceIdCounter st.
Proof.
  intros Hid. unfold updateResource, findResourceById.
  destruct (find_by_id id (resources st)) as [r|] eqn:Hf; simpl; [|done].
  split; [apply length_replace_by_id|]. split.
  { intros id' Hne. apply find_by_id_replace_ne; [done|]. intros x. by apply merge_resource_id. }
  split; [|done].
  rewrite find_replace_by_id, Hf; [done|]. intros x Hx. by rewrite merge_resource_id.
Qed.

(** X15.  [deleteResource] reports success exactly when the id is present, and
    then removes exactly one record; other ids resolve as before; with
    distinct ids the deleted id no longer resolves; users and counters are
    unchanged. *)
Theorem deleteResource_removes_one (st : MemoryStore) (id : string) :
  (snd (deleteResource st id) = true <-> is_Some (findResourceById st id)) /\
  length (resources (fst (deleteResource st id)))
    = length (resources st) - (if snd (deleteResource st id) then 1 else 0) /\
  (forall id', id' <> id ->
     findResourceById (fst (deleteResource st id)) id' = findResourceById st id') /\
  (NoDup (map Resource._id (resources st)) -> findResourceById (fst (deleteResource st id)) id = None) /\
  users (fst (deleteResource st id)) = users st /\
  resourceIdCounter (fst (deleteResource st id)) = resourceIdCounter st.
Proof.
  unfold deleteResource, findResourceById.
  destruct (find_by_id id (resources st)) as [r|] eqn:Hf; simpl.
  - split_and!; [done|by apply (length_remove_by_id _ _ r)|..|done|done].
    + intros id' Hne. by apply find_by_id_remove_ne.
    + apply find_by_id_remove_nodup.
  - split_and!; [split; [discriminate|intros [? ?]; discriminate]|lia|done|intros _; done|done|done].
Qed.

(** X16.  Deleting a freshly created resource restores the resource list, while
    the counter stays advanced. *)
Theorem createResource_then_deleteResource now (st st1 : MemoryStore) (data : ResourceData) (r : Resource.t) :
  resources_wf st -> rd_id data = None -> createResource now st data = (st1, r) ->
  exists st2, deleteResource st1 (Resource._id r) = (st2, true) /\
    resources st2 = resources st /\ resourceIdCounter st2 = (resourceIdCounter st + 1)%N.
Proof.
  intros Hwf Hid Hc. pose proof Hc as Hc0.
  apply createResource_fresh_spec in Hc0 as (Hr & Hres & Hcnt & _ & Hfind); [|done|done].
  unfold deleteResource. unfold findResourceById in Hfind. rewrite Hfind.
  eexists. split; [reflexivity|]. simpl. split; [|done].
  rewrite Hres. apply remove_by_id_app_fresh; [|done]. rewrite Hr. by apply fresh_resource_id.
Qed.

(** X17.  The delete handler answers 200 only when the resource exists and the
    caller is its creator or an admin, and then removes it from the active
    backend; any other answer leaves both backends unchanged.  Its message
    for a failed volatile deletion is never produced. *)
Theorem deleteResource_handler_outcomes (b : Backend) (db : Backends) (id userId userRole : string) :
  message (snd (AiController.deleteResource b db id userId userRole))
    <> AiController.deleteResource_missing /\
  (code (snd (AiController.deleteResource b db id userId userRole)) = 200%Z ->
   (exists r, find_by_id id (records_of b db) = Some r /\
      (Resource.creator r = userId \/ userRole = "admin")) /\
   records_of b (fst (AiController.deleteResource b db id userId userRole))
     = remove_by_id id (records_of b db)) /\
  (code (snd (AiController.deleteResource b db id userId userRole)) <> 200%Z ->
   fst (AiController.deleteResource b db id userId userRole) = db).
Proof.
  unfold AiController.deleteResource.
  destruct (find_by_id id (records_of b db)) as [r|] eqn:Hf; [|split_and!; done].
  destruct (negb _ && negb _) eqn:Hperm; [split_and!; done|].
  assert (Hown : Resource.creator r = userId \/ userRole = "admin").
  { apply andb_false_iff in Hperm as [H|H]; apply negb_false_iff, String.eqb_eq in H; auto. }
  destruct b; simpl.
  - split_and!; [done|intros _; split; [eauto|done]|done].
  - unfold deleteResource. simpl in Hf. rewrite Hf. simpl.
    split_and!; [done|intros _; split; [eauto|done]|done].
Qed.

(** X18.  [publishResource] succeeds exactly when the resource exists and the
    caller is its creator (an admin has no override); a failure leaves the
    backends unchanged. *)
Theorem publishResource_only_creator (now : Z) (db : Backends) (id userId : string) :
  (code (snd (AiController.publishResource now db id userId)) = 200%Z <->
   exists r, find_by_id id (collection db) = Some r /\ Resource.creator r = userId) /\
  (code (snd (AiController.publishResource now db id userId)) <> 200%Z ->
   fst (AiController.publishResource now db id userId) = db).
Proof.
  unfold AiController.publishResource.
  destruct (find_by_id id (collection db)) as [r|] eqn:Hf; simpl.
  - destruct (String.eqb_spec (Resource.creator r) userId) as [E|E]; simpl.
    + split; [split; [eauto|done]|done].
    + split; [|done]. split; [discriminate|]. intros [r' [Hr' Hc]]. injection Hr' as <-. done.
  - split; [|done]. split; [discriminate|]. intros [r' [Hr' _]]. discriminate Hr'.
Qed.

(** X19.  After a successful [publishResource], any caller reads the resource,
    which is now public. *)
Theorem publishResource_then_read (now now' : Z) (db db' : Backends)
    (id userId reader readerRole : string) (resp : Response Resource.t) :
  AiController.publishResource now db id userId = (db', resp) -> code resp = 200%Z ->
  exists db'' r, getResourceById now' Persistent db' id reader readerRole = (db'', ResourceReply r) /\
    Resource._id r = id /\ Resource.isPublic r = true.
Proof.
  unfold AiController.publishResource.
  destruct (find_by_id id (collection db)) as [r|] eqn:Hf; [|intros H; injection H as _ <-; discriminate].
  destruct (negb _); [intros H; injection H as _ <-; discriminate|].
  intros H _. injection H as <- _.
  assert (Hid : Resource._id r = id) by exact (find_by_id_id _ _ _ Hf).
  unfold getResourceById. simpl.
  rewrite find_replace_by_id, Hf
    by (intros x _; destruct (Resource.isPublic r); simpl; rewrite ?Hid; reflexivity).
  simpl. destruct (Resource.isPublic r) eqn:Hp; simpl; rewrite ?Hp, ?andb_false_r; simpl;
  (destruct (negb _); eexists _, _; (split; [reflexivity|]); simpl; auto).
Qed.

(* ----------------------------------------------------------------- *)
(** ** Generation records and the route checks *)

Lemma str_truthy_named (p : string) : p <> "" -> str_truthy (Some p) = Some p.
Proof. intros Hp. unfold str_truthy. apply String.eqb_neq in Hp. by rewrite Hp. Qed.

Lemma generateContent_handler_guard_spec now openai_generateText openai_generateImage claude_generateText
    (env : Env) (gens : GenerationStore) (userId : string) (req : GenerationRequest) (p : string) :
  g_provider req = Some p -> p <> "" ->
  (providers env !! p = None ->
   GenerationHandlers.generateContent now openai_generateText openai_generateImage claude_generateText
     env gens userId req = (gens, fail 400 ("AI提供商 " +:+ p +:+ " 不可用"))) /\
  (forall prov res, providers env !! p = Some prov ->
   match g_type req, generateImage_of now openai_generateImage prov with
   | TImage, Some generateImage => generateImage req
   | _, _ => generateText_of now openai_generateText claude_generateText prov req
   end = Resolve res ->
   snd (GenerationHandlers.generateContent now openai_generateText openai_generateImage
          claude_generateText env gens userId req) = ok 200 "内容生成成功" (pretty now, res)).
Proof.
  intros Hp Hne. unfold GenerationHandlers.generateContent, isProviderAvailable.
  rewrite Hp, (str_truthy_named p Hne). split.
  - intros Hnone. rewrite Hnone. reflexivity.
  - intros prov res Hprov Hres. rewrite Hprov. simpl.
    unfold generateContent. rewrite Hp, (str_or_named p _ Hne), Hprov, Hprov, Hres. reflexivity.
Qed.

(** X20.  The generate handler answers 400 for a named provider that is not
    registered, leaving the history unchanged; for a registered one whose
    adapter resolves, it answers 200 with the adapter's result under an id
    that is the current time in decimal. *)
Theorem generateContent_handler_guard now openai_generateText openai_generateImage claude_generateText
    (env : Env) (gens : GenerationStore) (userId : string) (req : GenerationRequest) (p : string) :
  g_provider req = Some p -> p <> "" ->
  (providers env !! p = None ->
   GenerationHandlers.generateContent now openai_generateText openai_generateImage claude_generateText
     env gens userId req = (gens, fail 400 ("AI提供商 " +:+ p +:+ " 不可用"))) /\
  (forall prov res, providers env !! p = Some prov ->
   match g_type req, generateImage_of now openai_generateImage prov with
   | TImage, Some generateImage => generateImage req
   | _, _ => generateText_of now openai_generateText claude_generateText prov req
   end = Resolve res ->
   snd (GenerationHandlers.generateContent now openai_generateText openai_generateImage
          claude_generateText env gens userId req) = ok 200 "内容生成成功" (pretty now, res)).
Proof. apply generateContent_handler_guard_spec. Qed.

Lemma providers_baidu (env : Env) : providers env !! "baidu" = None.
Proof.
  unfold providers. destruct (str_truthy (OPENAI_API_KEY env)), (str_truthy (CLAUDE_API_KEY env));
  vm_compute; reflexivity.
Qed.

(** X21.  A request naming [baidu], which the route validation admits, is always
    refused with 400 by the handler: no Baidu adapter is ever registered. *)
Theorem generateContent_handler_rejects_baidu now openai_generateText openai_generateImage
    claude_generateText (env : Env) (gens : GenerationStore) (userId : string) (req : GenerationRequest) :
  g_provider req = Some "baidu" ->
  GenerationHandlers.generateContent now openai_generateText openai_generateImage claude_generateText
    env gens userId req = (gens, fail 400 "AI提供商 baidu 不可用").
Proof.
  intros Hp. apply (generateContent_handler_guard_spec _ _ _ _ env gens userId req "baidu" Hp); [done|].
  apply providers_baidu.
Qed.

(** X22.  The generate handler either leaves the history unchanged and answers an
    error, or appends exactly one record owned by the caller, with the
    current time as id, status [completed] and no provider or model. *)
Theorem generateContent_handler_appends_own_record now openai_generateText openai_generateImage
    claude_generateText (env : Env) (gens : GenerationStore) (userId : string) (req : GenerationRequest) :
  let H := GenerationHandlers.generateContent now openai_generateText openai_generateImage
             claude_generateText env gens userId req in
  (fst H = gens /\ code (snd H) <> 200%Z) \/
  (exists g, fst H = gens ++ [g] /\ code (snd H) = 200%Z /\
     MemoryGenerationResult.userId g = userId /\ MemoryGenerationResult.provider g = None /\
     MemoryGenerationResult.model g = None /\ MemoryGenerationResult._id g = pretty now /\
     MemoryGenerationResult.status g = "completed").
Proof.
  simpl. unfold GenerationHandlers.generateContent.
  destruct (generateContent _ _ _ _ _ _) as [res|m]; simpl.
  - destruct (str_truthy (g_provider req)) as [p|]; [destruct (negb _)|]; simpl;
      [left; split; [done|discriminate]|right; eexists; split_and!; reflexivity..].
  - destruct (str_truthy (g_provider req)) as [p|]; [destruct (negb _)|]; simpl;
      left; split; try done; discriminate.
Qed.

Section V8SortPerm.
Context {A : Type} (compare : A -> A -> Z).

Lemma run_ascending_app prev l r rest :
  run_ascending compare prev l = (r, rest) -> r ++ rest = l.
Proof.
  revert prev r rest. induction l as [|x l IH]; simpl; intros prev r rest H.
  - by injection H as <- <-.
  - destruct (Z.ltb _ _); [by injection H as <- <-|].
    destruct (run_ascending compare x l) as [r' rest'] eqn:E. injection H as <- <-.
    simpl. f_equal. by apply (IH x).
Qed.

Lemma run_descending_app prev l r rest :
  run_descending compare prev l = (r, rest) -> r ++ rest = l.
Proof.
  revert prev r rest. induction l as [|x l IH]; simpl; intros prev r rest H.
  - by injection H as <- <-.
  - destruct (Z.ltb _ _); [|by injection H as <- <-].
    destruct (run_descending compare x l) as [r' rest'] eqn:E. injection H as <- <-.
    simpl. f_equal. by apply (IH x).
Qed.

Lemma countAndMakeRun_perm l run rest :
  countAndMakeRun compare l = (run, rest) -> run ++ rest ≡ₚ l.
Proof.
  unfold countAndMakeRun. destruct l as [|x0 [|x1 l]].
  - intros H. by injection H as <- <-.
  - intros H. by injection H as <- <-.
  - destruct (Z.ltb _ _).
    + destruct (run_descending compare x1 l) as [r rest'] eqn:E. intros H. injection H as <- <-.
      apply run_descending_app in E. rewrite <- E.
      rewrite (app_comm_cons _ _ x1), (app_comm_cons _ _ x0).
      apply Permutation_app_tail. apply Permutation_sym, Permutation_rev.
    + destruct (run_ascending compare x1 l) as [r rest'] eqn:E. intros H. injection H as <- <-.
      apply run_ascending_app in E. by rewrite <- E.
Qed.

Lemma binary_insert_perm run pivot : binary_insert compare run pivot ≡ₚ pivot :: run.
Proof.
  unfold binary_insert. set (pos := insertion_point _ _ _ _ _ _).
  rewrite <- Permutation_middle. by rewrite take_drop.
Qed.

Lemma fold_binary_insert_perm rest run :
  fold_left (binary_insert compare) rest run ≡ₚ run ++ rest.
Proof.
  revert run. induction rest as [|x rest IH]; intros run; simpl; [by rewrite app_nil_r|].
  rewrite IH, binary_insert_perm. rewrite <- Permutation_middle. done.
Qed.

Lemma v8_sort_short_perm l : v8_sort_short compare l ≡ₚ l.
Proof.
  unfold v8_sort_short. destruct (Nat.ltb _ _); [done|].
  destruct (countAndMakeRun compare l) as [run rest] eqn:E.
  rewrite fold_binary_insert_perm. by apply countAndMakeRun_perm.
Qed.
End V8SortPerm.

Lemma v8_sort_short_In {A} (compare : A -> A -> Z) l x : In x (v8_sort_short compare l) -> In x l.
Proof.
  intros H. apply list_elem_of_In. apply list_elem_of_In in H.
  by rewrite (v8_sort_short_perm compare l) in H.
Qed.

Lemma slice_In {A} (l : list A) a b x : In x (slice l a b) -> In x l.
Proof.
  unfold slice. intros H.
  assert (Hd : In x (skipn a l)).
  { rewrite <- (firstn_skipn (b - a) (skipn a l)). apply in_or_app. by left. }
  rewrite <- (firstn_skipn a l). apply in_or_app. by right.
Qed.

Lemma slice_length {A} (l : list A) a b : length (slice l a b) <= b - a.
Proof. unfold slice. rewrite length_firstn. lia. Qed.

(** X23.  For any sort that only reorders, [getGenerationHistory] answers 200 with
    at most [limit] records, all of them the caller's and matching the
    filters; [total] counts every matching record. *)
Theorem getGenerationHistory_results_of_caller array_sort (gens : GenerationStore) (userId : string)
    (p : HistoryParams) :
  (forall cmp l x, In x (array_sort cmp l) -> In x l) ->
  exists results pagination,
    GenerationHandlers.getGenerationHistory array_sort gens userId p = ok 200 "" (results, pagination) /\
    (forall g, In g results ->
       In g gens /\ MemoryGenerationResult.userId g = userId /\ history_keeps userId p g = true) /\
    total pagination = length (List.filter (history_keeps userId p) gens) /\
    pageSize pagination = default 20 (h_limit p) /\ length results <= pageSize pagination.
Proof.
  intros Hsort. unfold GenerationHandlers.getGenerationHistory.
  eexists _, _. split; [reflexivity|]. simpl. split_and!; [|done|done|].
  - intros g Hg. apply slice_In, Hsort, filter_In in Hg as [Hin Hk].
    split_and!; [done| |done].
    unfold history_keeps in Hk. apply andb_true_iff in Hk as [Hk _].
    apply andb_true_iff in Hk as [Hk _]. apply andb_true_iff in Hk as [Hk _].
    by apply String.eqb_eq.
  - etrans; [apply slice_length|]. lia.
Qed.

Lemma history_keeps_no_provider userId p prov g :
  str_truthy (h_provider p) = Some prov -> MemoryGenerationResult.provider g = None ->
  history_keeps userId p g = false.
Proof.
  intros Hp Hg. unfold history_keeps. rewrite Hp, Hg.
  rewrite bool_decide_false by discriminate. by rewrite andb_false_r.
Qed.

(** X24.  Stored generation records never carry a provider, so filtering the
    history by a non-empty provider always gives an empty page with [total]
    and [totalPages] 0. *)
Theorem getGenerationHistory_provider_filter_empty array_sort (gens : GenerationStore)
    (userId : string) (p : HistoryParams) (prov : string) :
  (forall cmp l x, In x (array_sort cmp l) -> In x l) ->
  Forall (fun g => MemoryGenerationResult.provider g = None) gens ->
  str_truthy (h_provider p) = Some prov ->
  exists pagination,
    GenerationHandlers.getGenerationHistory array_sort gens userId p = ok 200 "" ([], pagination) /\
    total pagination = 0 /\ totalPages pagination = 0.
Proof.
  intros Hsort Hall Hp.
  assert (Hnil : List.filter (history_keeps userId p) gens = []).
  { induction Hall as [|g gens Hg Hall IH]; [done|]. simpl.
    by rewrite (history_keeps_no_provider userId p prov g Hp Hg). }
  unfold GenerationHandlers.getGenerationHistory. rewrite Hnil.
  destruct (array_sort _ []) as [|x l] eqn:E.
  - unfold slice. rewrite drop_nil, take_nil. eexists. split; [reflexivity|].
    cbn [total totalPages length]. split; [done|].
    destruct (default 20 (h_limit p)) as [|n]; [done|].
    replace (0 + S n - 1) with n by lia. apply Nat.div_small. lia.
  - exfalso. eapply (Hsort _ [] x). rewrite E. by left.
Qed.

(** X25.  [getGenerationById] only returns a record of the caller with the
    requested id; [deleteGenerationResult] removes one record when it
    answers 200 and none otherwise, and never a record of another user. *)
Theorem generation_lookup_isolated (gens : GenerationStore) (id userId : string) :
  (forall g, body (GenerationHandlers.getGenerationById gens id userId) = Some g ->
     In g gens /\ MemoryGenerationResult._id g = id /\ MemoryGenerationResult.userId g = userId) /\
  List.filter (fun g => negb (String.eqb (MemoryGenerationResult.userId g) userId))
    (fst (GenerationHandlers.deleteGenerationResult gens id userId))
  = List.filter (fun g => negb (String.eqb (MemoryGenerationResult.userId g) userId)) gens /\
  length (fst (GenerationHandlers.deleteGenerationResult gens id userId))
  = length gens - (if bool_decide (code (snd (GenerationHandlers.deleteGenerationResult gens id userId)) = 200%Z)
                   then 1 else 0).
Proof.
  unfold GenerationHandlers.getGenerationById, GenerationHandlers.deleteGenerationResult.
  destruct (List.find (GenerationHandlers.owned id userId) gens) as [g0|] eqn:Hf; simpl.
  - split; [|split].
    + intros g H. injection H as <-. apply find_some in Hf as [Hin Ho].
      unfold GenerationHandlers.owned in Ho. apply andb_true_iff in Ho as [H1 H2].
      by apply String.eqb_eq in H1, H2.
    + clear Hf. induction gens as [|x gens IH]; simpl; [done|].
      destruct (GenerationHandlers.owned id userId x) eqn:Ho; simpl.
      * unfold GenerationHandlers.owned in Ho. apply andb_true_iff in Ho as [_ Ho]. by rewrite Ho.
      * destruct (negb _); [f_equal|]; exact IH.
    + try rewrite bool_decide_true by done. clear -Hf. revert Hf.
      induction gens as [|x gens IH]; intros Hf; [discriminate|].
      cbn [List.find] in Hf. cbn [GenerationHandlers.remove_first].
      destruct (GenerationHandlers.owned id userId x); cbn [length]; [lia|].
      rewrite (IH Hf). destruct gens; [discriminate|]. cbn [length]. lia.
  - split; [discriminate|]. try rewrite bool_decide_false by discriminate. split; [done|lia].
Qed.

Lemma pretty_N_go_length (k : nat) (x : N) (s : string) :
  (x < 10 ^ N.of_nat k)%N -> String.length (pretty_N_go x s) <= k + String.length s.
Proof.
  revert x s. induction k as [|k IH]; intros x s Hx.
  - assert (x = 0%N) as -> by (simpl in Hx; lia). rewrite pretty_N_go_0. lia.
  - destruct (decide (x = 0%N)) as [->|Hne]; [rewrite pretty_N_go_0; lia|].
    rewrite pretty_N_go_step by lia.
    etrans; [apply IH|cbn [String.length]; lia].
    apply N.Div0.div_lt_upper_bound. rewrite Nat2N.inj_succ, N.pow_succ_r' in Hx. exact Hx.
Qed.

Lemma all_chars_app (P : Ascii.ascii -> bool) (s1 s2 : string) :
  all_chars P (s1 +:+ s2) = all_chars P s1 && all_chars P s2.
Proof. induction s1 as [|c s1 IH]; simpl; [done|]. rewrite IH. apply andb_assoc. Qed.

Lemma pretty_N_go_chars (P : Ascii.ascii -> bool) (x : N) (s : string) :
  (forall d, P (pretty_N_char d) = true) -> all_chars P s = true -> all_chars P (pretty_N_go x s) = true.
Proof.
  intros HP. revert s. induction (N.lt_wf_0 x) as [x _ IH]; intros s Hs.
  destruct (decide (x = 0%N)) as [->|Hne]; [by rewrite pretty_N_go_0|].
  rewrite pretty_N_go_step by lia. apply IH; [apply N.div_lt; lia|].
  cbn [all_chars]. by rewrite HP, Hs.
Qed.

Lemma pretty_N_length (k : nat) (x : N) : (x < 10 ^ N.of_nat k)%N -> 0 < k -> String.length (pretty x) <= k.
Proof.
  intros Hx Hk. unfold pretty, pretty_N. case_decide; [simpl; lia|].
  pose proof (pretty_N_go_length k x "" Hx). simpl in *. lia.
Qed.

(** X26.  The id of a stored generation record (the current time in decimal)
    never passes the [isMongoId] check of the generation routes, for any
    time value a JavaScript [Date] can hold. *)
Theorem memory_generation_id_fails_isMongoId (now : Z) :
  (-8640000000000000 <= now <= 8640000000000000)%Z -> isMongoId (pretty now) = false.
Proof.
  intros Hnow. unfold isMongoId.
  assert (Hlen : String.length (pretty now) <= 17).
  { destruct now as [|p|p].
    - cbv. lia.
    - change (pretty (Zpos p)) with (pretty (Npos p)).
      etrans; [apply (pretty_N_length 16)|lia]; [|lia].
      change (10 ^ N.of_nat 16)%N with 10000000000000000%N. lia.
    - change (pretty (Zneg p)) with (String (Ascii.ascii_of_nat 45) (pretty (Npos p))). cbn [String.length].
      enough (String.length (pretty (Npos p)) <= 16) by lia.
      apply (pretty_N_length 16); [|lia].
      change (10 ^ N.of_nat 16)%N with 10000000000000000%N. lia. }
  destruct (Nat.eqb_spec (String.length (pretty now)) 24); [lia|]. apply andb_false_r.
Qed.

Lemma memory_id_char_digit d : memory_id_char (pretty_N_char d) = true.
Proof. unfold pretty_N_char. repeat case_match; reflexivity. Qed.

(** X27.  Every id made by [generateResourceId] passes the id check of the
    resource routes. *)
Theorem resourceIdOf_passes_route_validation (n : N) : resourceIdValid (resourceIdOf n) = true.
Proof.
  unfold resourceIdValid, resourceIdOf. apply orb_true_iff. right.
  rewrite all_chars_app. cbn [String.append String.eqb negb all_chars memory_id_char].
  change (all_chars memory_id_char "resource_") with true. simpl.
  unfold pretty, pretty_N. case_decide; [reflexivity|].
  apply pretty_N_go_chars; [apply memory_id_char_digit|reflexivity].
Qed.

Lemma generateContent_handler_success now openai_generateText openai_generateImage claude_generateText
    (env : Env) (gens gens' : GenerationStore) (userId : string) (req : GenerationRequest)
    (r : Response (string * GenerationResult)) :
  GenerationHandlers.generateContent now openai_generateText openai_generateImage claude_generateText
    env gens userId req = (gens', r) -> code r = 200%Z ->
  exists g, gens' = gens ++ [g] /\ MemoryGenerationResult._id g = pretty now /\
    MemoryGenerationResult.userId g = userId.
Proof.
  unfold GenerationHandlers.generateContent.
  destruct (generateContent _ _ _ _ _ _) as [res|m];
  destruct (str_truthy (g_provider req)) as [p|]; try destruct (negb _);
  intros H Hc; injection H as <- <-; try discriminate Hc; eexists; split_and!; reflexivity.
Qed.

Lemma find_skip_prefix {A} (p : A -> bool) (l m : list A) :
  (forall x, In x l -> p x = false) -> List.find p (l ++ m) = List.find p m.
Proof.
  induction l as [|x l IH]; intros H; simpl; [done|].
  rewrite (H x (or_introl eq_refl)). apply IH. intros y Hy. apply H. by right.
Qed.

Lemma remove_first_skip_prefix {A} (p : A -> bool) (l m : list A) :
  (forall x, In x l -> p x = false) ->
  GenerationHandlers.remove_first p (l ++ m) = l ++ GenerationHandlers.remove_first p m.
Proof.
  induction l as [|x l IH]; intros H; simpl; [done|].
  rewrite (H x (or_introl eq_refl)), IH; [done|]. intros y Hy. apply H. by right.
Qed.

(** X29.  Two generations by the same user in the same millisecond are stored
    under the same id; deleting that id removes the first one, and the
    second is still found under it. *)
Theorem generations_in_same_millisecond_share_id now openai_generateText openai_generateImage
    claude_generateText (env : Env) (gens gens1 gens2 : GenerationStore) (userId : string)
    (req1 req2 : GenerationRequest) (r1 r2 : Response (string * GenerationResult)) :
  (forall g, In g gens -> MemoryGenerationResult._id g <> pretty now) ->
  GenerationHandlers.generateContent now openai_generateText openai_generateImage claude_generateText
    env gens userId req1 = (gens1, r1) -> code r1 = 200%Z ->
  GenerationHandlers.generateContent now openai_generateText openai_generateImage claude_generateText
    env gens1 userId req2 = (gens2, r2) -> code r2 = 200%Z ->
  exists g1 g2, gens2 = gens ++ [g1; g2] /\
    MemoryGenerationResult._id g1 = pretty now /\ MemoryGenerationResult._id g2 = pretty now /\
    GenerationHandlers.deleteGenerationResult gens2 (pretty now) userId
      = (gens ++ [g2], ok 200 "删除成功" tt) /\
    GenerationHandlers.getGenerationById (gens ++ [g2]) (pretty now) userId = ok 200 "" g2.
Proof.
  intros Hfresh H1 Hc1 H2 Hc2.
  destruct (generateContent_handler_success _ _ _ _ _ _ _ _ _ _ H1 Hc1) as (g1 & -> & Hid1 & Hu1).
  destruct (generateContent_handler_success _ _ _ _ _ _ _ _ _ _ H2 Hc2) as (g2 & -> & Hid2 & Hu2).
  exists g1, g2. rewrite <- app_assoc.
  assert (Hno : forall g, In g gens -> GenerationHandlers.owned (pretty now) userId g = false).
  { intros g Hg. unfold GenerationHandlers.owned.
    destruct (String.eqb_spec (MemoryGenerationResult._id g) (pretty now)) as [E|_]; [|done].
    exfalso. exact (Hfresh g Hg E). }
  assert (Ho1 : GenerationHandlers.owned (pretty now) userId g1 = true).
  { unfold GenerationHandlers.owned. by rewrite Hid1, Hu1, !String.eqb_refl. }
  assert (Ho2 : GenerationHandlers.owned (pretty now) userId g2 = true).
  { unfold GenerationHandlers.owned. by rewrite Hid2, Hu2, !String.eqb_refl. }
  split_and!; [done|done|done|..].
  - unfold GenerationHandlers.deleteGenerationResult.
    rewrite (find_skip_prefix _ _ _ Hno), (remove_first_skip_prefix _ _ _ Hno).
    simpl. by rewrite Ho1.
  - unfold GenerationHandlers.getGenerationById.
    rewrite (find_skip_prefix _ _ _ Hno). simpl. by rewrite Ho2.
Qed.

(* ----------------------------------------------------------------- *)
(** ** Instances on sample data *)



Lemma users_demo_registered : users demo_registered = {[ "user_1" := demo_teacher_user ]}.
Proof. vm_compute. reflexivity. Qed.

Lemma resources_wf_demo_store : resources_wf demo_store.
Proof.
  split.
  - apply (bool_decide_unpack _). vm_compute. reflexivity.
  - constructor; [exists 1%N; split; reflexivity|].
    constructor; [exists 2%N; split; reflexivity|constructor].
Qed.

Lemma createUser_overlapping_duplicates_email_witness :
  createUser_check initialStore demo_teacher = None /\
  createUser_check initialStore second_teacher = None /\
  ud_email demo_teacher = ud_email second_teacher /\
  ~ users_unique (fst (createUser_overlapping (fun s => s) 0 1 initialStore demo_teacher second_teacher)) /\
  snd (createUser (fun s => s) 1 (fst (createUser (fun s => s) 0 initialStore demo_teacher)) second_teacher)
    = Throw createUser_error.
Proof.
  assert (H1 : createUser_check initialStore demo_teacher = None) by reflexivity.
  assert (H2 : createUser_check initialStore second_teacher = None) by reflexivity.
  assert (He : ud_email demo_teacher = ud_email second_teacher) by reflexivity.
  destruct (createUser_overlapping_duplicates_email (fun s => s) 0 1 _ _ _ H1 H2 He)
    as ((u1 & u2 & _ & _ & _ & _ & _ & Hnu) & Hseq).
  exact (conj H1 (conj H2 (conj He (conj Hnu Hseq)))).
Defined.



Lemma login_replies_previous_lastLoginAt_witness :
  ids_match demo_registered /\
  AuthController.login String.eqb demo_token 1 demo_registered "teacher@example.com" "Teacher123"
    = (fst (AuthController.login String.eqb demo_token 1 demo_registered "teacher@example.com" "Teacher123"),
       ok 200 "登录成功" (demo_teacher_user, demo_token "user_1")) /\
  exists u', users (fst (AuthController.login String.eqb demo_token 1 demo_registered
                           "teacher@example.com" "Teacher123")) !! "user_1" = Some u' /\
    MemoryUser.lastLoginAt u' = Some 1%Z /\ MemoryUser.updatedAt u' = 1%Z /\
    MemoryUser.password u' = "Teacher123".
Proof.
  assert (Hids : ids_match demo_registered).
  { unfold ids_match. rewrite users_demo_registered. by apply map_Forall_singleton. }
  assert (E : AuthController.login String.eqb demo_token 1 demo_registered "teacher@example.com" "Teacher123"
    = (fst (AuthController.login String.eqb demo_token 1 demo_registered "teacher@example.com" "Teacher123"),
       ok 200 "登录成功" (demo_teacher_user, demo_token "user_1"))) by (vm_compute; reflexivity).
  split; [exact Hids|split; [exact E|]].
  destruct (login_replies_previous_lastLoginAt _ _ _ _ _ _ _ _ _ Hids E)
    as (_ & _ & u' & Hu' & Hl & Hup & _ & _ & Hpw & _).
  exists u'. split_and!; [exact Hu'|exact Hl|exact Hup|exact Hpw].
Defined.


Lemma updateProfile_keeps_credentials_witness :
  users demo_registered !! "user_1" = Some demo_teacher_user /\
  (exists u', users (fst (AuthController.updateProfile 1 demo_registered demo_teacher_user
                           (AuthController.mkProfileBody (Some "Ms. T") None None None None)))
                !! "user_1" = Some u' /\
     MemoryUser.password u' = "Teacher123" /\ MemoryUser.role u' = "teacher") /\
  (code (snd (AuthController.updateProfile 1 demo_registered demo_teacher_user
                (AuthController.mkProfileBody (Some "Ms. T") None None None None))) = 404%Z <->
   users demo_registered !! "user_1" = None).
Proof.
  assert (Hu : users demo_registered !! "user_1" = Some demo_teacher_user)
    by (rewrite users_demo_registered; apply lookup_singleton_eq).
  destruct (updateProfile_keeps_credentials 1 demo_registered demo_teacher_user
              (AuthController.mkProfileBody (Some "Ms. T") None None None None) "user_1" _ Hu)
    as [(u' & Hu' & _ & _ & _ & Hpw & Hr & _) Hcode].
  split; [exact Hu|split; [|exact Hcode]].
  exists u'. split_and!; [exact Hu'|exact Hpw|exact Hr].
Defined.

Lemma createUser_then_find_witness :
  createUser (fun s => s) 0 initialStore demo_teacher
    = (fst (createUser (fun s => s) 0 initialStore demo_teacher), Resolve demo_teacher_user) /\
  findUserById (fst (createUser (fun s => s) 0 initialStore demo_teacher)) "user_1" = Some demo_teacher_user /\
  findUserByEmail (fst (createUser (fun s => s) 0 initialStore demo_teacher)) "teacher@example.com"
    = Some demo_teacher_user.
Proof.
  assert (E : createUser (fun s => s) 0 initialStore demo_teacher
    = (fst (createUser (fun s => s) 0 initialStore demo_teacher), Resolve demo_teacher_user))
    by (vm_compute; reflexivity).
  destruct (createUser_then_find _ _ _ _ _ _ E) as (H1 & H2 & _).
  exact (conj E (conj H1 H2)).
Defined.

Lemma createResource_fresh_witness :
  resources_wf demo_store /\ rd_id (demo_resource_data None) = None /\
  Resource._id (snd (createResource 7 demo_store (demo_resource_data None))) = resourceIdOf 3 /\
  resources_wf (fst (createResource 7 demo_store (demo_resource_data None))).
Proof.
  assert (Hid : rd_id (demo_resource_data None) = None) by reflexivity.
  destruct (createResource_fresh 7 demo_store _ _ _ resources_wf_demo_store Hid (surjective_pairing _))
    as (Hr & _ & _ & Hwf & _).
  exact (conj resources_wf_demo_store (conj Hid (conj Hr Hwf))).
Defined.

Lemma createResource_body_id_shadowed_witness :
  findResourceById demo_store "resource_1" = Some (demo_resource "resource_1" "user_1" false 5) /\
  rd_id (demo_resource_data (Some "resource_1")) = Some "resource_1" /\
  findResourceById (fst (createResource 7 demo_store (demo_resource_data (Some "resource_1")))) "resource_1"
    = Some (demo_resource "resource_1" "user_1" false 5) /\
  ~ NoDup (map Resource._id (resources (fst (createResource 7 demo_store
                                               (demo_resource_data (Some "resource_1")))))).
Proof.
  assert (Hf : findResourceById demo_store "resource_1" = Some (demo_resource "resource_1" "user_1" false 5))
    by reflexivity.
  assert (Hid : rd_id (demo_resource_data (Some "resource_1")) = Some "resource_1") by reflexivity.
  exact (conj Hf (conj Hid (createResource_body_id_shadowed 7 demo_store _ _ _ Hf Hid))).
Defined.

Lemma createResource_handler_then_owner_read_witness :
  resources_wf demo_store /\ rd_id (demo_resource_data None) = None /\
  code (snd (AiController.createResource 7 demo_store "user_1" (demo_resource_data None))) = 201%Z /\
  exists r, body (snd (AiController.createResource 7 demo_store "user_1" (demo_resource_data None))) = Some r /\
    Resource.creator r = "user_1" /\
    getResourceById 8 Volatile
      (mkBackends [] (fst (AiController.createResource 7 demo_store "user_1" (demo_resource_data None))))
      (Resource._id r) "user_1" "teacher"
    = (mkBackends [] (fst (AiController.createResource 7 demo_store "user_1" (demo_resource_data None))),
       ResourceReply r).
Proof.
  assert (Hid : rd_id (demo_resource_data None) = None) by reflexivity.
  split; [exact resources_wf_demo_store|split; [exact Hid|]].
  exact (createResource_handler_then_owner_read 7 8 demo_store _ "user_1" "teacher" _ [] _
           resources_wf_demo_store Hid (surjective_pairing _)).
Defined.

Lemma cleanupCorruptedResources_drops_question_marked_titles_witness :
  includes (Resource.title corrupted_resource) "?" = true /\
  all_chars outside_class_byte (Resource.title corrupted_resource) = true /\
  ~ In corrupted_resource
      (resources (cleanupCorruptedResources
                    (mkStore ∅ 1 4 (resources demo_store ++ [corrupted_resource])))).
Proof.
  assert (H1 : includes (Resource.title corrupted_resource) "?" = true) by reflexivity.
  assert (H2 : all_chars outside_class_byte (Resource.title corrupted_resource) = true) by reflexivity.
  exact (conj H1 (conj H2 (cleanupCorruptedResources_drops_question_marked_titles _ _ H1 H2))).
Defined.

Lemma updateResource_in_place_witness :
  ru_id (retitle "Fractions II") = None /\
  length (resources (fst (updateResource 9 demo_store "resource_1" (retitle "Fractions II"))))
    = length (resources demo_store) /\
  findResourceById (fst (updateResource 9 demo_store "resource_1" (retitle "Fractions II"))) "resource_2"
    = findResourceById demo_store "resource_2".
Proof.
  assert (H : ru_id (retitle "Fractions II") = None) by reflexivity.
  destruct (updateResource_in_place 9 demo_store "resource_1" _ H) as (Hl & Hn & _).
  exact (conj H (conj Hl (Hn "resource_2" ltac:(discriminate)))).
Defined.

Lemma createResource_then_deleteResource_witness :
  resources_wf demo_store /\ rd_id (demo_resource_data None) = None /\
  exists st2, deleteResource (fst (createResource 7 demo_store (demo_resource_data None)))
                (Resource._id (snd (createResource 7 demo_store (demo_resource_data None)))) = (st2, true) /\
    resources st2 = resources demo_store /\ resourceIdCounter st2 = 4%N.
Proof.
  assert (Hid : rd_id (demo_resource_data None) = None) by reflexivity.
  split; [exact resources_wf_demo_store|split; [exact Hid|]].
  exact (createResource_then_deleteResource 7 demo_store _ _ _ resources_wf_demo_store Hid
           (surjective_pairing _)).
Defined.

Lemma publishResource_then_read_witness :
  code (snd (AiController.publishResource 9 (mkBackends (resources demo_store) initialStore)
               "resource_1" "user_1")) = 200%Z /\
  exists db'' r,
    getResourceById 10 Persistent
      (fst (AiController.publishResource 9 (mkBackends (resources demo_store) initialStore)
              "resource_1" "user_1")) "resource_1" "user_2" "student" = (db'', ResourceReply r) /\
    Resource._id r = "resource_1" /\ Resource.isPublic r = true.
Proof.
  assert (Hc : code (snd (AiController.publishResource 9 (mkBackends (resources demo_store) initialStore)
                            "resource_1" "user_1")) = 200%Z) by (vm_compute; reflexivity).
  split; [exact Hc|].
  exact (publishResource_then_read 9 10 _ _ "resource_1" "user_1" "user_2" "student" _
           (surjective_pairing _) Hc).
Defined.

Lemma generateContent_handler_guard_witness :
  g_provider (generation_request "openai") = Some "openai" /\ "openai" <> "" /\
  providers (mkEnv None None) !! "openai" = None /\
  GenerationHandlers.generateContent 0 no_generateText no_generateText no_generateText
    (mkEnv None None) [] "user_1" (generation_request "openai")
  = ([], fail 400 ("AI提供商 " +:+ "openai" +:+ " 不可用")).
Proof.
  assert (H1 : g_provider (generation_request "openai") = Some "openai") by reflexivity.
  assert (H2 : "openai" <> "") by discriminate.
  assert (H3 : providers (mkEnv None None) !! "openai" = None) by (vm_compute; reflexivity).
  split_and!; [exact H1|exact H2|exact H3|].
  exact (proj1 (generateContent_handler_guard 0 no_generateText no_generateText no_generateText
                  (mkEnv None None) [] "user_1" _ _ H1 H2) H3).
Defined.

Lemma generateContent_handler_rejects_baidu_witness :
  g_provider (generation_request "baidu") = Some "baidu" /\
  GenerationHandlers.generateContent 0 no_generateText no_generateText no_generateText
    (mkEnv (Some "sk-1") (Some "ck-1")) one_generation "user_1" (generation_request "baidu")
  = (one_generation, fail 400 "AI提供商 baidu 不可用").
Proof.
  assert (H : g_provider (generation_request "baidu") = Some "baidu") by reflexivity.
  exact (conj H (generateContent_handler_rejects_baidu 0 _ _ _ _ _ "user_1" _ H)).
Defined.

Lemma getGenerationHistory_results_of_caller_witness :
  (forall cmp l x, In x (@v8_sort_short MemoryGenerationResult.t cmp l) -> In x l) /\
  exists results pagination,
    GenerationHandlers.getGenerationHistory v8_sort_short one_generation "user_1"
      (mkHistoryParams None (Some 10) None None None) = ok 200 "" (results, pagination) /\
    pageSize pagination = 10 /\ length results <= 10.
Proof.
  assert (Hs : forall cmp l x, In x (@v8_sort_short MemoryGenerationResult.t cmp l) -> In x l)
    by (intros cmp l x; apply v8_sort_short_In).
  split; [exact Hs|].
  destruct (getGenerationHistory_results_of_caller v8_sort_short one_generation "user_1"
              (mkHistoryParams None (Some 10) None None None) Hs)
    as (results & pagination & E & _ & _ & Hp & Hl).
  exists results, pagination. cbn in Hp. rewrite Hp in Hl. exact (conj E (conj Hp Hl)).
Defined.

Lemma getGenerationHistory_provider_filter_empty_witness :
  (forall cmp l x, In x (@v8_sort_short MemoryGenerationResult.t cmp l) -> In x l) /\
  Forall (fun g => MemoryGenerationResult.provider g = None) one_generation /\
  str_truthy (h_provider (mkHistoryParams None None (Some "mock") None None)) = Some "mock" /\
  exists pagination,
    GenerationHandlers.getGenerationHistory v8_sort_short one_generation "user_1"
      (mkHistoryParams None None (Some "mock") None None) = ok 200 "" ([], pagination) /\
    total pagination = 0 /\ totalPages pagination = 0.
Proof.
  assert (Hs : forall cmp l x, In x (@v8_sort_short MemoryGenerationResult.t cmp l) -> In x l)
    by (intros cmp l x; apply v8_sort_short_In).
  assert (Hf : Forall (fun g => MemoryGenerationResult.provider g = None) one_generation)
    by (vm_compute; repeat constructor).
  assert (Hp : str_truthy (h_provider (mkHistoryParams None None (Some "mock") None None)) = Some "mock")
    by reflexivity.
  split_and!; [exact Hs|exact Hf|exact Hp|].
  exact (getGenerationHistory_provider_filter_empty v8_sort_short _ "user_1" _ _ Hs Hf Hp).
Defined.

Lemma memory_generation_id_fails_isMongoId_witness :
  (-8640000000000000 <= 1700000000000 <= 8640000000000000)%Z /\
  isMongoId (pretty 1700000000000%Z) = false.
Proof.
  assert (H : (-8640000000000000 <= 1700000000000 <= 8640000000000000)%Z) by lia.
  exact (conj H (memory_generation_id_fails_isMongoId 1700000000000 H)).
Defined.

Lemma generations_in_same_millisecond_share_id_witness :
  code (snd (GenerationHandlers.generateContent 0 no_generateText no_generateText no_generateText
               (mkEnv None None) [] "user_1" (generation_request "mock"))) = 200%Z /\
  code (snd (GenerationHandlers.generateContent 0 no_generateText no_generateText no_generateText
               (mkEnv None None) one_generation "user_1" (generation_request "mock"))) = 200%Z /\
  exists g1 g2,
    fst (GenerationHandlers.generateContent 0 no_generateText no_generateText no_generateText
           (mkEnv None None) one_generation "user_1" (generation_request "mock")) = [g1; g2] /\
    MemoryGenerationResult._id g1 = (pretty 0%Z) /\ MemoryGenerationResult._id g2 = (pretty 0%Z) /\
    GenerationHandlers.getGenerationById
      (fst (GenerationHandlers.deleteGenerationResult
              (fst (GenerationHandlers.generateContent 0 no_generateText no_generateText no_generateText
                      (mkEnv None None) one_generation "user_1" (generation_request "mock")))
              (pretty 0%Z) "user_1")) (pretty 0%Z) "user_1" = ok 200 "" g2.
Proof.
  assert (H1 : code (snd (GenerationHandlers.generateContent 0 no_generateText no_generateText no_generateText
               (mkEnv None None) [] "user_1" (generation_request "mock"))) = 200%Z)
    by (vm_compute; reflexivity).
  assert (H2 : code (snd (GenerationHandlers.generateContent 0 no_generateText no_generateText no_generateText
               (mkEnv None None) one_generation "user_1" (generation_request "mock"))) = 200%Z)
    by (vm_compute; reflexivity).
  split; [exact H1|split; [exact H2|]].
  destruct (generations_in_same_millisecond_share_id 0 _ _ _ (mkEnv None None) [] one_generation _ "user_1"
              (generation_request "mock") (generation_request "mock") _ _
              (fun g Hg => match Hg with end) (surjective_pairing _) H1 (surjective_pairing _) H2)
    as (g1 & g2 & Hgens & Hid1 & Hid2 & Hdel & Hget).
  exists g1, g2. rewrite Hdel. exact (conj Hgens (conj Hid1 (conj Hid2 Hget))).
Defined.
